(** * PrivacyToken: the token-operation orchestration of the wallet SDK

    A shallow embedding of [src/walletInstance/token/privacyToken.ts].

    The class validates its arguments, gathers coin inventories, and
    dispatches to transaction and bridge services.  Every method is an
    [async] function with a [try]/[catch] that logs and rethrows.  The
    embedding is a small monad with

    - a state holding the instance ([this]) and the outside world the
      services act on,
    - an exception channel (JavaScript [throw]),
    - a chronological list of emitted events: log lines and service calls,
      each call recorded with its arguments and with how it ended.

    Numbers are modelled as [Z]: the properties below only use the sign and
    the identity of an amount, never floating-point arithmetic. *)

From Stdlib Require Import ZArith List Lia.
From stdpp Require Import base strings list.

Local Open Scope string_scope.
Local Open Scope Z_scope.
Local Open Scope list_scope.

(** ** JavaScript values that may be missing *)

(** A slot that holds [undefined], [null] or a value. *)
Inductive nullable (A : Type) : Type :=
| Undefined
| Null
| Present (a : A).
Arguments Undefined {A}.
Arguments Null {A}.
Arguments Present {A} a.

(** The values a getter of this class can evaluate to. *)
Inductive js_value : Type :=
| JsUndefined
| JsNull
| JsBool (b : bool).

(** JavaScript truthiness, as used by [if (...)] and [!]. *)
Definition truthy (v : js_value) : bool :=
  match v with
  | JsBool b => b
  | JsUndefined | JsNull => false
  end.

(** Objects are always truthy; [undefined] and [null] never are. *)
Definition is_present {A} (v : nullable A) : bool :=
  match v with
  | Present _ => true
  | Undefined | Null => false
  end.

(** [s] occurs somewhere inside [msg]. *)
Definition mentions (msg s : string) : Prop :=
  exists before after, msg = before +:+ s +:+ after.

(** ** Thrown values *)

(** Why a [Validator] check refused a value. *)
Inductive invalid : Type :=
| Required
| InvalidString
| InvalidAmount
| InvalidPaymentInfoList.

(** The values that travel on the exception channel.  [ValidationError] is
    what a [Validator] throws, [ErrorCode] is the ambient error class the
    bridge methods instantiate, [CollaboratorError] stands for anything a
    service raises of its own. *)
Inductive exn : Type :=
| ValidationError (label : string) (why : invalid)
| ErrorCode (message : string)
| CollaboratorError (detail : string).

Definition is_validation_error (e : exn) : bool :=
  match e with
  | ValidationError _ _ => true
  | _ => false
  end.

(** ** Types and constants declared outside this file *)

(** The imported models and the [TokenInfo] constants are not part of the
    sources at hand; they are taken as parameters. *)
Class Externals : Type := {
  AccountKeySetModel : Type;
  paymentAddressKeySerialized : AccountKeySetModel -> string;
  CurrencyType : Type;
  CurrencyType_eq_dec :: EqDecision CurrencyType;
  Coins : Type;
  History : Type;
  txId : History -> string;
  BridgeHistories : Type;
  World : Type;
  ETHEREUM : string; (* TokenInfo.BRIDGE_PRIVACY_TOKEN.DEFINED_TOKEN_ID.ETHEREUM *)
  ERC20 : CurrencyType; (* TokenInfo.BRIDGE_PRIVACY_TOKEN.CURRENCY_TYPE.ERC20 *)
}.

(** Modelled from the spec: the [PaymentInfoModel] declaration is missing;
    an entry has a destination and an amount. *)
Record PaymentInfoModel : Type := {
  paymentAddressStr : nullable string;
  amount : Z;
}.

Module BridgeInfo.
Record t `{Externals} : Type := {
  currencyType : CurrencyType;
  contractID : string;
}.
End BridgeInfo.

Module PrivacyTokenApi.
Record t `{Externals} : Type := {
  tokenId : string;
  name : string;
  symbol : string;
  supplyAmount : Z;
  bridgeInfo : nullable BridgeInfo.t;
}.
End PrivacyTokenApi.

(** ** Parameter objects handed to the services *)

Module SendPrivacyToken.
Record param `{Externals} : Type := {
  accountKeySet : AccountKeySetModel;
  nativeAvailableCoins : Coins;
  privacyAvailableCoins : Coins;
  nativeFee : Z;
  privacyFee : Z;
  privacyPaymentInfoList : list PaymentInfoModel;
  tokenId : string;
  tokenName : string;
  tokenSymbol : string;
}.
End SendPrivacyToken.

Module SendBurningRequest.
Record param `{Externals} : Type := {
  accountKeySet : AccountKeySetModel;
  nativeAvailableCoins : Coins;
  privacyAvailableCoins : Coins;
  nativeFee : Z;
  privacyFee : Z;
  tokenId : string;
  tokenName : string;
  tokenSymbol : string;
  outchainAddress : string;
  burningAmount : Z;
}.
End SendBurningRequest.

Module SendPdeContribution.
Record param `{Externals} : Type := {
  accountKeySet : AccountKeySetModel;
  availableNativeCoins : Coins;
  privacyAvailableCoins : Coins;
  nativeFee : Z;
  pdeContributionPairID : string;
  tokenId : string;
  contributedAmount : Z;
  privacyFee : Z;
  tokenSymbol : string;
  tokenName : string;
}.
End SendPdeContribution.

Module SendPdeTradeRequest.
Record param `{Externals} : Type := {
  accountKeySet : AccountKeySetModel;
  availableNativeCoins : Coins;
  privacyAvailableCoins : Coins;
  nativeFee : Z;
  tradingFee : Z;
  privacyFee : Z;
  tokenIdBuy : string;
  sellAmount : Z;
  minimumAcceptableAmount : Z;
  tokenName : string;
  tokenSymbol : string;
  tokenId : string;
}.
End SendPdeTradeRequest.

Module Deposit.
(** [commonParams] of [bridgeGenerateDepositAddress]. *)
Record common `{Externals} : Type := {
  paymentAddress : string;
  walletAddress : string;
  tokenId : string;
  currencyType : CurrencyType;
}.
(** [{ ...commonParams, tokenContractID }] *)
Record erc20 `{Externals} : Type := {
  commonParams : common;
  tokenContractID : string;
}.
End Deposit.

Module BridgeHistory.
Record param : Type := {
  paymentAddress : string;
  tokenId : string;
}.
End BridgeHistory.

(** ** The instance *)

(** Modelled from the spec: the base class [Token] (./token) is missing.  It
    holds the owning account reference and the identity fields. *)
Module Token.
Record t `{Externals} : Type := {
  accountKeySet : AccountKeySetModel;
  tokenId : string;
  name : string;
  symbol : string;
}.

(** Modelled from the spec: the missing base constructor stores what
    [super({ accountKeySet, tokenId, name, symbol })] passes it. *)
Definition constructor `{Externals} (accountKeySet : AccountKeySetModel)
    (tokenId name symbol : string) : t :=
  {| accountKeySet := accountKeySet; tokenId := tokenId;
     name := name; symbol := symbol |}.
End Token.

Record PrivacyToken `{Externals} : Type := {
  base : Token.t;
  isPrivacyToken : bool;
  totalSupply : Z;
  bridgeInfo : nullable BridgeInfo.t;
}.

Section Fields.
Context `{Externals}.
Definition accountKeySet (t : PrivacyToken) := Token.accountKeySet (base t).
Definition tokenId (t : PrivacyToken) := Token.tokenId (base t).
Definition name (t : PrivacyToken) := Token.name (base t).
Definition symbol (t : PrivacyToken) := Token.symbol (base t).
End Fields.

(** ** Events *)

(** A call to one of the imported services, with its argument. *)
Inductive call `{Externals} : Type :=
| CallHasExchangeRate (tokenId : string)
| CallGetAvailableCoins (tokenId : nullable string)
| CallSendPrivacyToken (p : SendPrivacyToken.param)
| CallSendBurningRequest (p : SendBurningRequest.param)
| CallSendPrivacyTokenPdeContribution (p : SendPdeContribution.param)
| CallSendPrivacyTokenPdeTradeRequest (p : SendPdeTradeRequest.param)
| CallGenETHDepositAddress (p : Deposit.common)
| CallGenERC20DepositAddress (p : Deposit.erc20)
| CallGenCentralizedDepositAddress (p : Deposit.common)
| CallGetBridgeHistory (p : BridgeHistory.param).

(** How an awaited call ended. *)
Inductive ending : Type :=
| Returned
| Raised (e : exn).

Inductive level : Type := Info | Warning | Error.

(** The second argument of [L.info] / [L.error]. *)
Inductive detail `{Externals} : Type :=
| NoDetail
| TransferDetail (paymentList : list PaymentInfoModel) (nativeFee privacyFee : Z)
| BurningDetail (outchainAddress : string) (burningAmount nativeFee privacyFee : Z)
| PdeContributionDetail (pdeContributionPairID : string)
    (contributedAmount nativeFee privacyFee : Z)
| TradeDetail (tokenIdBuy : string)
    (sellAmount minimumAcceptableAmount nativeFee privacyFee tradingFee : Z)
| DepositDetail (tokenId : string) (currencyType : CurrencyType) (paymentAddress : string)
| ErrorDetail (e : exn).

Inductive event `{Externals} : Type :=
| Log (lvl : level) (message : string) (d : detail)
| Call (c : call) (r : ending).

Section Traces.
Context `{Externals}.

(** The service calls of a trace, in order, without the log lines. *)
Fixpoint calls (tr : list event) : list call :=
  match tr with
  | [] => []
  | Log _ _ _ :: tr' => calls tr'
  | Call c _ :: tr' => c :: calls tr'
  end.

(** The service calls of a trace with their endings. *)
Fixpoint served (tr : list event) : list (call * ending) :=
  match tr with
  | [] => []
  | Log _ _ _ :: tr' => served tr'
  | Call c r :: tr' => (c, r) :: served tr'
  end.

Definition is_inventory_query (c : call) : bool :=
  match c with
  | CallGetAvailableCoins _ => true
  | _ => false
  end.

Definition is_native_query (c : call) : bool :=
  match c with
  | CallGetAvailableCoins Null => true
  | _ => false
  end.

Definition is_token_query (c : call) : bool :=
  match c with
  | CallGetAvailableCoins Undefined => true
  | _ => false
  end.

Definition is_send (c : call) : bool :=
  match c with
  | CallSendPrivacyToken _ | CallSendBurningRequest _
  | CallSendPrivacyTokenPdeContribution _
  | CallSendPrivacyTokenPdeTradeRequest _ => true
  | _ => false
  end.

Definition is_deposit_generator (c : call) : bool :=
  match c with
  | CallGenETHDepositAddress _ | CallGenERC20DepositAddress _
  | CallGenCentralizedDepositAddress _ => true
  | _ => false
  end.

Definition is_bridge_history (c : call) : bool :=
  match c with
  | CallGetBridgeHistory _ => true
  | _ => false
  end.

(** How many calls of a trace satisfy [p]. *)
Definition count (p : call -> bool) (tr : list event) : nat :=
  length (List.filter p (calls tr)).


End Traces.

(** ** The monad *)

Section Monad.
Context `{Externals}.

Record State : Type := {
  this : PrivacyToken;
  world : World;
}.

Record Outcome (A : Type) : Type := {
  result : exn + A;
  final : State;
  emitted : list event;
}.
Arguments result {A} _.
Arguments final {A} _.
Arguments emitted {A} _.

Definition M (A : Type) : Type := State -> Outcome A.

Definition ret {A} (a : A) : M A :=
  fun s => {| result := inr a; final := s; emitted := [] |}.

Definition throw {A} (e : exn) : M A :=
  fun s => {| result := inl e; final := s; emitted := [] |}.

Definition bind {A B} (m : M A) (k : A -> M B) : M B :=
  fun s =>
    match m s with
    | {| result := inl e; final := s'; emitted := tr |} =>
        {| result := inl e; final := s'; emitted := tr |}
    | {| result := inr a; final := s'; emitted := tr |} =>
        match k a s' with
        | {| result := r; final := s''; emitted := tr' |} =>
            {| result := r; final := s''; emitted := tr ++ tr' |}
        end
    end.

(** [try { m } catch (e) { h e }] *)
Definition try_catch {A} (m : M A) (h : exn -> M A) : M A :=
  fun s =>
    match m s with
    | {| result := inl e; final := s'; emitted := tr |} =>
        match h e s' with
        | {| result := r; final := s''; emitted := tr' |} =>
            {| result := r; final := s''; emitted := tr ++ tr' |}
        end
    | {| result := inr a; final := s'; emitted := tr |} =>
        {| result := inr a; final := s'; emitted := tr |}
    end.

(** A synchronous computation that returns or throws. *)
Definition lift {A} (r : exn + A) : M A :=
  fun s => {| result := r; final := s; emitted := [] |}.

Definition get_this : M PrivacyToken :=
  fun s => {| result := inr (this s); final := s; emitted := [] |}.

Definition log (lvl : level) (message : string) (d : detail) : M unit :=
  fun s => {| result := inr tt; final := s; emitted := [Log lvl message d] |}.

(** [await f(arg)]: the service acts on the outside world only, and the
    call is recorded together with its ending. *)
Definition invoke {A} (c : call) (f : World -> (exn + A) * World) : M A :=
  fun s =>
    match f (world s) with
    | (inl e, w) =>
        {| result := inl e; final := {| this := this s; world := w |};
           emitted := [Call c (Raised e)] |}
    | (inr a, w) =>
        {| result := inr a; final := {| this := this s; world := w |};
           emitted := [Call c Returned] |}
    end.

End Monad.

Arguments result {_ A} _.
Arguments final {_ A} _.
Arguments emitted {_ A} _.

Notation "x <- m ;; k" := (bind m (fun x => k))
  (at level 100, m at next level, right associativity).

(** ** Argument validation *)

(** Modelled from the spec: the [Validator] class ([@src/utils/validator])
    is missing.  The spec gives its contract: a required parameter must not
    be absent; a string parameter is a non-empty string; an amount is a
    non-negative number; a payment list is a well-formed list of
    payment-info entries, each with a destination and a positive amount, and
    the empty list is refused.  A failed check throws a validation error
    that carries the label the validator was created with. *)
Module Validator.

Definition required {A} (label : string) (v : nullable A) : exn + A :=
  match v with
  | Present a => inr a
  | Undefined | Null => inl (ValidationError label Required)
  end.

Definition paymentInfo (p : PaymentInfoModel) : bool :=
  is_present (paymentAddressStr p) && (0 <? amount p).

Definition amount (label : string) (n : Z) : exn + unit :=
  if 0 <=? n then inr tt else inl (ValidationError label InvalidAmount).

Definition paymentInfoList (label : string) (l : list PaymentInfoModel)
    : exn + unit :=
  match l with
  | [] => inl (ValidationError label InvalidPaymentInfoList)
  | _ :: _ =>
      if forallb paymentInfo l then inr tt
      else inl (ValidationError label InvalidPaymentInfoList)
  end.

Definition string (label : String.string) (s : String.string) : exn + unit :=
  match s with
  | EmptyString => inl (ValidationError label InvalidString)
  | String _ _ => inr tt
  end.

End Validator.

(** ** The imported services *)

(** Each service is a function of its argument and of the outside world; it
    returns a value or raises, and leaves a new world behind. *)
Module Services.
Record t `{Externals} : Type := {
  hasExchangeRate : string -> World -> (exn + bool) * World;
  getAvailableCoins :
    Token.t -> nullable string -> World -> (exn + Coins) * World;
  sendPrivacyToken :
    SendPrivacyToken.param -> World -> (exn + History) * World;
  sendBurningRequest :
    SendBurningRequest.param -> World -> (exn + History) * World;
  sendPrivacyTokenPdeContribution :
    SendPdeContribution.param -> World -> (exn + History) * World;
  sendPrivacyTokenPdeTradeRequest :
    SendPdeTradeRequest.param -> World -> (exn + History) * World;
  genETHDepositAddress : Deposit.common -> World -> (exn + string) * World;
  genERC20DepositAddress : Deposit.erc20 -> World -> (exn + string) * World;
  genCentralizedDepositAddress :
    Deposit.common -> World -> (exn + string) * World;
  getBridgeHistory :
    BridgeHistory.param -> World -> (exn + BridgeHistories) * World;
}.
End Services.

(** ** Construction *)

Record PrivacyTokenParam `{Externals} : Type := {
  param_accountKeySet : nullable AccountKeySetModel;
  param_privacyTokenApi : nullable PrivacyTokenApi.t;
}.

Section Construction.
Context `{Externals}.

(** The constructor: two [required] checks, [super(...)], three
    assignments. *)
Definition constructor (p : PrivacyTokenParam) : exn + PrivacyToken :=
  match Validator.required "accountKeySet" (param_accountKeySet p) with
  | inl e => inl e
  | inr accountKeySet =>
      match Validator.required "privacyTokenApi" (param_privacyTokenApi p) with
      | inl e => inl e
      | inr privacyTokenApi =>
          inr {| base := Token.constructor accountKeySet
                           (PrivacyTokenApi.tokenId privacyTokenApi)
                           (PrivacyTokenApi.name privacyTokenApi)
                           (PrivacyTokenApi.symbol privacyTokenApi);
                 totalSupply := PrivacyTokenApi.supplyAmount privacyTokenApi;
                 isPrivacyToken := true;
                 bridgeInfo := PrivacyTokenApi.bridgeInfo privacyTokenApi |}
      end
  end.

(** [this.bridgeInfo?.currencyType === ERC20]: a strict comparison, hence a
    boolean; [undefined] is not the ERC20 constant. *)
Definition bridgeErc20Token (t : PrivacyToken) : bool :=
  match bridgeInfo t with
  | Present bi => bool_decide (BridgeInfo.currencyType bi = ERC20)
  | Undefined | Null => false
  end.

(** [this.bridgeInfo && this.tokenId === ETHEREUM]: [&&] yields its left
    operand when that operand is falsy. *)
Definition bridgeEthereum (t : PrivacyToken) : js_value :=
  match bridgeInfo t with
  | Undefined => JsUndefined
  | Null => JsNull
  | Present _ => JsBool (bool_decide (tokenId t = ETHEREUM))
  end.

End Construction.

(** ** The methods *)

Section Methods.
Context `{Externals} (S : Services.t).

(** Modelled from the spec: [getAvailableCoins] is inherited from the
    missing base class.  It is the coin-inventory query for this account
    with an optional token filter; it reads the instance and acts on the
    outside world.  [null] asks for the native currency, no argument asks
    for this token. *)
Definition getAvailableCoins (tokenId : nullable string) : M Coins :=
  self <- get_this;;
  invoke (CallGetAvailableCoins tokenId)
         (Services.getAvailableCoins S (base self) tokenId).

Definition hasExchangeRate : M bool :=
  self <- get_this;;
  invoke (CallHasExchangeRate (tokenId self))
         (Services.hasExchangeRate S (tokenId self)).

Definition getNativeAvailableCoins : M Coins :=
  getAvailableCoins Null.

Definition transfer (paymentList : nullable (list PaymentInfoModel))
    (nativeFee privacyFee : nullable Z) : M History :=
  try_catch
    (paymentList <- lift (Validator.required "paymentList" paymentList);;
     _ <- lift (Validator.paymentInfoList "paymentList" paymentList);;
     nativeFee <- lift (Validator.required "nativeFee" nativeFee);;
     _ <- lift (Validator.amount "nativeFee" nativeFee);;
     privacyFee <- lift (Validator.required "privacyFee" privacyFee);;
     _ <- lift (Validator.amount "privacyFee" privacyFee);;
     self <- get_this;;
     _ <- log Info ("Privacy token " +:+ tokenId self +:+ " transfer")
            (TransferDetail paymentList nativeFee privacyFee);;
     self <- get_this;;
     nativeAvailableCoins <- getNativeAvailableCoins;;
     privacyAvailableCoins <- getAvailableCoins Undefined;;
     self' <- get_this;;
     let p := {| SendPrivacyToken.accountKeySet := accountKeySet self;
                 SendPrivacyToken.nativeAvailableCoins := nativeAvailableCoins;
                 SendPrivacyToken.privacyAvailableCoins := privacyAvailableCoins;
                 SendPrivacyToken.nativeFee := nativeFee;
                 SendPrivacyToken.privacyFee := privacyFee;
                 SendPrivacyToken.privacyPaymentInfoList := paymentList;
                 SendPrivacyToken.tokenId := tokenId self';
                 SendPrivacyToken.tokenName := name self';
                 SendPrivacyToken.tokenSymbol := symbol self' |} in
     history <- invoke (CallSendPrivacyToken p) (Services.sendPrivacyToken S p);;
     self <- get_this;;
     _ <- log Info ("Privacy token " +:+ tokenId self
                    +:+ " transfered successfully with tx id " +:+ txId history)
            NoDetail;;
     ret history)
    (fun e =>
       self <- get_this;;
       _ <- log Error ("Privacy token " +:+ tokenId self +:+ " transfered failed")
              (ErrorDetail e);;
       throw e).

Definition burning (outchainAddress : nullable string)
    (burningAmount nativeFee privacyFee : nullable Z) : M History :=
  try_catch
    (outchainAddress <- lift (Validator.required "outchainAddress" outchainAddress);;
     _ <- lift (Validator.string "outchainAddress" outchainAddress);;
     burningAmount <- lift (Validator.required "burningAmount" burningAmount);;
     _ <- lift (Validator.amount "burningAmount" burningAmount);;
     nativeFee <- lift (Validator.required "nativeFee" nativeFee);;
     _ <- lift (Validator.amount "nativeFee" nativeFee);;
     privacyFee <- lift (Validator.required "privacyFee" privacyFee);;
     _ <- lift (Validator.amount "privacyFee" privacyFee);;
     self <- get_this;;
     _ <- log Info ("Privacy token " +:+ tokenId self +:+ " send burning request")
            (BurningDetail outchainAddress burningAmount nativeFee privacyFee);;
     self <- get_this;;
     nativeAvailableCoins <- getNativeAvailableCoins;;
     privacyAvailableCoins <- getAvailableCoins Undefined;;
     self' <- get_this;;
     let p := {| SendBurningRequest.accountKeySet := accountKeySet self;
                 SendBurningRequest.nativeAvailableCoins := nativeAvailableCoins;
                 SendBurningRequest.privacyAvailableCoins := privacyAvailableCoins;
                 SendBurningRequest.nativeFee := nativeFee;
                 SendBurningRequest.privacyFee := privacyFee;
                 SendBurningRequest.tokenId := tokenId self';
                 SendBurningRequest.tokenName := name self';
                 SendBurningRequest.tokenSymbol := symbol self';
                 SendBurningRequest.outchainAddress := outchainAddress;
                 SendBurningRequest.burningAmount := burningAmount |} in
     history <- invoke (CallSendBurningRequest p) (Services.sendBurningRequest S p);;
     self <- get_this;;
     _ <- log Info ("Privacy token " +:+ tokenId self
                    +:+ " send burning request successfully with tx id "
                    +:+ txId history)
            NoDetail;;
     ret history)
    (fun e =>
       self <- get_this;;
       _ <- log Error ("Privacy token " +:+ tokenId self
                       +:+ " sent burning request failed")
              (ErrorDetail e);;
       throw e).

Definition pdeContribution (pdeContributionPairID : nullable string)
    (contributedAmount nativeFee privacyFee : nullable Z) : M History :=
  try_catch
    (pdeContributionPairID <-
       lift (Validator.required "pdeContributionPairID" pdeContributionPairID);;
     _ <- lift (Validator.string "pdeContributionPairID" pdeContributionPairID);;
     contributedAmount <-
       lift (Validator.required "contributedAmount" contributedAmount);;
     _ <- lift (Validator.amount "contributedAmount" contributedAmount);;
     nativeFee <- lift (Validator.required "nativeFee" nativeFee);;
     _ <- lift (Validator.amount "nativeFee" nativeFee);;
     privacyFee <- lift (Validator.required "privacyFee" privacyFee);;
     _ <- lift (Validator.amount "privacyFee" privacyFee);;
     self <- get_this;;
     _ <- log Info ("Privacy token " +:+ tokenId self
                    +:+ " sent PDE contribution request")
            (PdeContributionDetail pdeContributionPairID contributedAmount
               nativeFee privacyFee);;
     self <- get_this;;
     availableNativeCoins <- getNativeAvailableCoins;;
     privacyAvailableCoins <- getAvailableCoins Undefined;;
     self' <- get_this;;
     let p := {| SendPdeContribution.accountKeySet := accountKeySet self;
                 SendPdeContribution.availableNativeCoins := availableNativeCoins;
                 SendPdeContribution.privacyAvailableCoins := privacyAvailableCoins;
                 SendPdeContribution.nativeFee := nativeFee;
                 SendPdeContribution.pdeContributionPairID := pdeContributionPairID;
                 SendPdeContribution.tokenId := tokenId self';
                 SendPdeContribution.contributedAmount := contributedAmount;
                 SendPdeContribution.privacyFee := privacyFee;
                 SendPdeContribution.tokenSymbol := symbol self';
                 SendPdeContribution.tokenName := name self' |} in
     history <- invoke (CallSendPrivacyTokenPdeContribution p)
                       (Services.sendPrivacyTokenPdeContribution S p);;
     self <- get_this;;
     _ <- log Info ("Privacy token " +:+ tokenId self
                    +:+ " sent PDE contribution request successfully with tx id "
                    +:+ txId history)
            NoDetail;;
     ret history)
    (fun e =>
       self <- get_this;;
       _ <- log Error ("Privacy token " +:+ tokenId self
                       +:+ " sent PDE contribution request failed")
              (ErrorDetail e);;
       throw e).

Definition requestTrade (tokenIdBuy : nullable string)
    (sellAmount minimumAcceptableAmount nativeFee privacyFee tradingFee
       : nullable Z) : M History :=
  try_catch
    (tokenIdBuy <- lift (Validator.required "tokenIdBuy" tokenIdBuy);;
     _ <- lift (Validator.string "tokenIdBuy" tokenIdBuy);;
     sellAmount <- lift (Validator.required "sellAmount" sellAmount);;
     _ <- lift (Validator.amount "sellAmount" sellAmount);;
     minimumAcceptableAmount <-
       lift (Validator.required "minimumAcceptableAmount" minimumAcceptableAmount);;
     _ <- lift (Validator.amount "minimumAcceptableAmount" minimumAcceptableAmount);;
     nativeFee <- lift (Validator.required "nativeFee" nativeFee);;
     _ <- lift (Validator.amount "nativeFee" nativeFee);;
     privacyFee <- lift (Validator.required "privacyFee" privacyFee);;
     _ <- lift (Validator.amount "privacyFee" privacyFee);;
     tradingFee <- lift (Validator.required "tradingFee" tradingFee);;
     _ <- lift (Validator.amount "tradingFee" tradingFee);;
     self <- get_this;;
     _ <- log Info ("Privacy token " +:+ tokenId self +:+ " sent trade request")
            (TradeDetail tokenIdBuy sellAmount minimumAcceptableAmount
               nativeFee privacyFee tradingFee);;
     self <- get_this;;
     availableNativeCoins <- getNativeAvailableCoins;;
     privacyAvailableCoins <- getAvailableCoins Undefined;;
     self' <- get_this;;
     let p := {| SendPdeTradeRequest.accountKeySet := accountKeySet self;
                 SendPdeTradeRequest.availableNativeCoins := availableNativeCoins;
                 SendPdeTradeRequest.privacyAvailableCoins := privacyAvailableCoins;
                 SendPdeTradeRequest.nativeFee := nativeFee;
                 SendPdeTradeRequest.tradingFee := tradingFee;
                 SendPdeTradeRequest.privacyFee := privacyFee;
                 SendPdeTradeRequest.tokenIdBuy := tokenIdBuy;
                 SendPdeTradeRequest.sellAmount := sellAmount;
                 SendPdeTradeRequest.minimumAcceptableAmount := minimumAcceptableAmount;
                 SendPdeTradeRequest.tokenName := name self';
                 SendPdeTradeRequest.tokenSymbol := symbol self';
                 SendPdeTradeRequest.tokenId := tokenId self' |} in
     history <- invoke (CallSendPrivacyTokenPdeTradeRequest p)
                       (Services.sendPrivacyTokenPdeTradeRequest S p);;
     self <- get_this;;
     _ <- log Info ("Privacy token " +:+ tokenId self
                    +:+ " sent trade request successfully with tx id "
                    +:+ txId history)
            NoDetail;;
     ret history)
    (fun e =>
       self <- get_this;;
       _ <- log Error ("Privacy token " +:+ tokenId self
                       +:+ " sent trade request failed")
              (ErrorDetail e);;
       throw e).

(** [commonParams] as the method builds it. *)
Definition commonParams (self : PrivacyToken) (bi : BridgeInfo.t)
    : Deposit.common :=
  {| Deposit.paymentAddress := paymentAddressKeySerialized (accountKeySet self);
     Deposit.walletAddress := paymentAddressKeySerialized (accountKeySet self);
     Deposit.tokenId := tokenId self;
     Deposit.currencyType := BridgeInfo.currencyType bi |}.

Definition bridgeGenerateDepositAddress : M string :=
  try_catch
    (self <- get_this;;
     match bridgeInfo self with
     | Undefined | Null =>
         throw (ErrorCode ("Token " +:+ tokenId self
                           +:+ " does not support deposit function"))
     | Present bi =>
         _ <- log Info "Create deposit request"
                (DepositDetail (tokenId self) (BridgeInfo.currencyType bi)
                   (paymentAddressKeySerialized (accountKeySet self)));;
         tempAddress <-
           (if truthy (bridgeEthereum self) then
              invoke (CallGenETHDepositAddress (commonParams self bi))
                     (Services.genETHDepositAddress S (commonParams self bi))
            else if bridgeErc20Token self then
              let p := {| Deposit.commonParams := commonParams self bi;
                          Deposit.tokenContractID := BridgeInfo.contractID bi |} in
              invoke (CallGenERC20DepositAddress p)
                     (Services.genERC20DepositAddress S p)
            else
              invoke (CallGenCentralizedDepositAddress (commonParams self bi))
                     (Services.genCentralizedDepositAddress S (commonParams self bi)));;
         _ <- log Info ("Generated temp deposit address successfully: "
                        +:+ tempAddress)
                NoDetail;;
         _ <- log Warning ("The temp deposit address (" +:+ tempAddress
                           +:+ ") is only available in 60 mins from now")
                NoDetail;;
         ret tempAddress
     end)
    (fun e =>
       _ <- log Error "Generated temp deposit address failed" (ErrorDetail e);;
       throw e).

Definition bridgeGetHistory : M BridgeHistories :=
  try_catch
    (self <- get_this;;
     match bridgeInfo self with
     | Undefined | Null =>
         throw (ErrorCode ("Token " +:+ tokenId self
                           +:+ " does not support bridge history function"))
     | Present _ =>
         let p := {| BridgeHistory.paymentAddress :=
                       paymentAddressKeySerialized (accountKeySet self);
                     BridgeHistory.tokenId := tokenId self |} in
         histories <- invoke (CallGetBridgeHistory p) (Services.getBridgeHistory S p);;
         _ <- log Info "Get bridge history successfully" NoDetail;;
         ret histories
     end)
    (fun e =>
       _ <- log Error "Get bridge history failed" (ErrorDetail e);;
       throw e).

(** ** The public surface as data *)

(** One constructor per public operation, so that a statement can range
    over all of them. *)
Inductive request : Type :=
| HasExchangeRate
| GetNativeAvailableCoins
| Transfer (paymentList : nullable (list PaymentInfoModel))
    (nativeFee privacyFee : nullable Z)
| Burning (outchainAddress : nullable string)
    (burningAmount nativeFee privacyFee : nullable Z)
| PdeContribution (pdeContributionPairID : nullable string)
    (contributedAmount nativeFee privacyFee : nullable Z)
| RequestTrade (tokenIdBuy : nullable string)
    (sellAmount minimumAcceptableAmount nativeFee privacyFee tradingFee
       : nullable Z)
| BridgeGenerateDepositAddress
| BridgeGetHistory.

Inductive response : Type :=
| Rate (b : bool)
| Inventory (c : Coins)
| Submitted (h : History)
| TempAddress (a : string)
| Histories (hs : BridgeHistories).

Definition perform (r : request) : M response :=
  match r with
  | HasExchangeRate => b <- hasExchangeRate;; ret (Rate b)
  | GetNativeAvailableCoins => c <- getNativeAvailableCoins;; ret (Inventory c)
  | Transfer pl nf pf => h <- transfer pl nf pf;; ret (Submitted h)
  | Burning a b nf pf => h <- burning a b nf pf;; ret (Submitted h)
  | PdeContribution i a nf pf => h <- pdeContribution i a nf pf;; ret (Submitted h)
  | RequestTrade t s m nf pf tf => h <- requestTrade t s m nf pf tf;; ret (Submitted h)
  | BridgeGenerateDepositAddress => a <- bridgeGenerateDepositAddress;; ret (TempAddress a)
  | BridgeGetHistory => hs <- bridgeGetHistory;; ret (Histories hs)
  end.

(** The four operations that submit a transaction. *)
Definition is_send_request (r : request) : bool :=
  match r with
  | Transfer _ _ _ | Burning _ _ _ _ | PdeContribution _ _ _ _
  | RequestTrade _ _ _ _ _ _ => true
  | _ => false
  end.

(** The six operations with a [try]/[catch] around collaborator calls. *)
Definition is_guarded_request (r : request) : bool :=
  match r with
  | HasExchangeRate | GetNativeAvailableCoins => false
  | _ => true
  end.

Definition is_bridge_request (r : request) : bool :=
  match r with
  | BridgeGenerateDepositAddress | BridgeGetHistory => true
  | _ => false
  end.

(** ** The declared checks, following the spec's words *)

(** The outcome of one chained check [required().kind()]: the thrown value,
    if any. *)
Definition failure {A} (chain : exn + A) : option exn :=
  match chain with
  | inl e => Some e
  | inr _ => None
  end.

Definition check_amount (label : string) (v : nullable Z) : option exn :=
  failure (match Validator.required label v with
           | inl e => inl e
           | inr n => Validator.amount label n
           end).

Definition check_string (label : string) (v : nullable string) : option exn :=
  failure (match Validator.required label v with
           | inl e => inl e
           | inr s => Validator.string label s
           end).

Definition check_paymentInfoList (label : string)
    (v : nullable (list PaymentInfoModel)) : option exn :=
  failure (match Validator.required label v with
           | inl e => inl e
           | inr l => Validator.paymentInfoList label l
           end).

(** The parameters of an operation in the order of its signature, each with
    the verdict of its check. *)
Definition declared_checks (r : request) : list (option exn) :=
  match r with
  | Transfer pl nf pf =>
      [check_paymentInfoList "paymentList" pl;
       check_amount "nativeFee" nf; check_amount "privacyFee" pf]
  | Burning a b nf pf =>
      [check_string "outchainAddress" a; check_amount "burningAmount" b;
       check_amount "nativeFee" nf; check_amount "privacyFee" pf]
  | PdeContribution i a nf pf =>
      [check_string "pdeContributionPairID" i;
       check_amount "contributedAmount" a;
       check_amount "nativeFee" nf; check_amount "privacyFee" pf]
  | RequestTrade t s m nf pf tf =>
      [check_string "tokenIdBuy" t; check_amount "sellAmount" s;
       check_amount "minimumAcceptableAmount" m;
       check_amount "nativeFee" nf; check_amount "privacyFee" pf;
       check_amount "tradingFee" tf]
  | _ => []
  end.

(** First failure wins. *)
Fixpoint first_failure (verdicts : list (option exn)) : option exn :=
  match verdicts with
  | [] => None
  | Some e :: _ => Some e
  | None :: rest => first_failure rest
  end.

(** The fee arguments of an operation. *)
Definition fees (r : request) : list (nullable Z) :=
  match r with
  | Transfer _ nf pf | Burning _ _ nf pf | PdeContribution _ _ nf pf => [nf; pf]
  | RequestTrade _ _ _ nf pf tf => [nf; pf; tf]
  | _ => []
  end.

Definition is_negative (v : nullable Z) : bool :=
  match v with
  | Present n => n <? 0
  | Undefined | Null => false
  end.

End Methods.

(** ** The vocabulary of the properties *)

Section Vocabulary.
Context `{Externals}.

(** The generator the spec selects, as a function of the token id and the
    bridge's currency type. *)
Definition selected_generator (self : PrivacyToken) (bi : BridgeInfo.t) : call :=
  if bool_decide (tokenId self = ETHEREUM) then
    CallGenETHDepositAddress (commonParams self bi)
  else if bool_decide (BridgeInfo.currencyType bi = ERC20) then
    CallGenERC20DepositAddress
      {| Deposit.commonParams := commonParams self bi;
         Deposit.tokenContractID := BridgeInfo.contractID bi |}
  else
    CallGenCentralizedDepositAddress (commonParams self bi).

(** A list of served calls is fail-stop for a rejection [res] when a call
    that raised is the last one and its error is the rejection. *)
Fixpoint fail_stop (tr : list (call * ending)) (res : option exn)
    : Prop :=
  match tr with
  | [] => True
  | (_, Returned) :: tr' => fail_stop tr' res
  | (_, Raised e) :: tr' => tr' = [] /\ res = Some e
  end.

(** What the services see of a send operation whose arguments passed
    validation: the native inventory, then this token's inventory, then the
    send; a query that raises ends the run. *)
Inductive send_trace : list (call * ending) -> Prop :=
| native_failed (e : exn) :
    send_trace [(CallGetAvailableCoins Null, Raised e)]
| token_failed (e : exn) :
    send_trace [(CallGetAvailableCoins Null, Returned);
                (CallGetAvailableCoins Undefined, Raised e)]
| dispatched (c : call) (en : ending) :
    is_send c = true ->
    send_trace [(CallGetAvailableCoins Null, Returned);
                (CallGetAvailableCoins Undefined, Returned);
                (c, en)].

(** The claim that both inventories are gathered exactly once, both before
    the send. *)
Definition gathers_both_once_before_send (tr : list event) : Prop :=
  count is_native_query tr = 1%nat /\
  count is_token_query tr = 1%nat /\
  forall pre c en post,
    served tr = pre ++ (c, en) :: post -> is_send c = true ->
    pre = [(CallGetAvailableCoins Null, Returned);
           (CallGetAvailableCoins Undefined, Returned)].

(** A computation frames the instance when it ends with the [this] it
    started with, whatever else it does. *)
Definition frames {A} (m : M A) : Prop :=
  forall s, this (final (m s)) = this s.

(** The construction scenario as the spec words it, for an account key set
    [aks]: every getter compared with [===]. *)
Definition construction_scenario_claim (S : Services.t)
    (aks : AccountKeySetModel) (w : World) : Prop :=
  exists t,
    constructor
      {| param_accountKeySet := Present aks;
         param_privacyTokenApi :=
           Present {| PrivacyTokenApi.tokenId := "T1";
                      PrivacyTokenApi.name := "Test";
                      PrivacyTokenApi.symbol := "TST";
                      PrivacyTokenApi.supplyAmount := 1000;
                      PrivacyTokenApi.bridgeInfo := Null |} |} = inr t /\
    totalSupply t = 1000 /\
    isPrivacyToken t = true /\
    bridgeErc20Token t = false /\
    bridgeEthereum t = JsBool false /\
    exists message,
      result (bridgeGetHistory S {| this := t; world := w |})
      = inl (ErrorCode message) /\
      mentions message "T1".

End Vocabulary.

(** ** Vocabulary of the logging and dispatch properties *)

Section LogVocabulary.
Context `{Externals}.

Definition level_eqb (a b : level) : bool :=
  match a, b with
  | Info, Info | Warning, Warning | Error, Error => true
  | _, _ => false
  end.

(** The log lines of a trace at one level, in order. *)
Fixpoint logged (lvl : level) (tr : list event) : list (string * detail) :=
  match tr with
  | [] => []
  | Log l message d :: tr' =>
      if level_eqb l lvl then (message, d) :: logged lvl tr'
      else logged lvl tr'
  | Call _ _ :: tr' => logged lvl tr'
  end.

(** How the trace records the answer of a service. *)
Definition ending_of {A} (answer : exn + A) : ending :=
  match answer with
  | inl e => Raised e
  | inr _ => Returned
  end.

(** The message of the [catch] block of an operation; the two operations
    without a [try] have none. *)
Definition failure_message (r : request) (self : PrivacyToken) : option string :=
  match r with
  | HasExchangeRate | GetNativeAvailableCoins => None
  | Transfer _ _ _ =>
      Some ("Privacy token " +:+ tokenId self +:+ " transfered failed")
  | Burning _ _ _ _ =>
      Some ("Privacy token " +:+ tokenId self +:+ " sent burning request failed")
  | PdeContribution _ _ _ _ =>
      Some ("Privacy token " +:+ tokenId self
            +:+ " sent PDE contribution request failed")
  | RequestTrade _ _ _ _ _ _ =>
      Some ("Privacy token " +:+ tokenId self +:+ " sent trade request failed")
  | BridgeGenerateDepositAddress => Some "Generated temp deposit address failed"
  | BridgeGetHistory => Some "Get bridge history failed"
  end.

(** The first [L.info] of a send operation: its message and the arguments
    it carries.  It is only reached with every argument present. *)
Definition attempt (r : request) (self : PrivacyToken)
    : option (string * detail) :=
  match r with
  | Transfer (Present pl) (Present nf) (Present pf) =>
      Some ("Privacy token " +:+ tokenId self +:+ " transfer",
            TransferDetail pl nf pf)
  | Burning (Present a) (Present b) (Present nf) (Present pf) =>
      Some ("Privacy token " +:+ tokenId self +:+ " send burning request",
            BurningDetail a b nf pf)
  | PdeContribution (Present i) (Present a) (Present nf) (Present pf) =>
      Some ("Privacy token " +:+ tokenId self
            +:+ " sent PDE contribution request",
            PdeContributionDetail i a nf pf)
  | RequestTrade (Present t) (Present sa) (Present m) (Present nf)
      (Present pf) (Present tf) =>
      Some ("Privacy token " +:+ tokenId self +:+ " sent trade request",
            TradeDetail t sa m nf pf tf)
  | _ => None
  end.

(** The last [L.info] of a send operation that returned [h]. *)
Definition success_message (r : request) (self : PrivacyToken) (h : History)
    : option string :=
  match r with
  | Transfer _ _ _ =>
      Some ("Privacy token " +:+ tokenId self
            +:+ " transfered successfully with tx id " +:+ txId h)
  | Burning _ _ _ _ =>
      Some ("Privacy token " +:+ tokenId self
            +:+ " send burning request successfully with tx id " +:+ txId h)
  | PdeContribution _ _ _ _ =>
      Some ("Privacy token " +:+ tokenId self
            +:+ " sent PDE contribution request successfully with tx id "
            +:+ txId h)
  | RequestTrade _ _ _ _ _ _ =>
      Some ("Privacy token " +:+ tokenId self
            +:+ " sent trade request successfully with tx id " +:+ txId h)
  | _ => None
  end.

(** The services an operation is entitled to call. *)
Definition allowed_call (r : request) (c : call) : bool :=
  match r, c with
  | HasExchangeRate, CallHasExchangeRate _ => true
  | GetNativeAvailableCoins, CallGetAvailableCoins Null => true
  | Transfer _ _ _, (CallGetAvailableCoins _ | CallSendPrivacyToken _) => true
  | Burning _ _ _ _, (CallGetAvailableCoins _ | CallSendBurningRequest _) => true
  | PdeContribution _ _ _ _,
    (CallGetAvailableCoins _ | CallSendPrivacyTokenPdeContribution _) => true
  | RequestTrade _ _ _ _ _ _,
    (CallGetAvailableCoins _ | CallSendPrivacyTokenPdeTradeRequest _) => true
  | BridgeGenerateDepositAddress,
    (CallGenETHDepositAddress _ | CallGenERC20DepositAddress _
     | CallGenCentralizedDepositAddress _) => true
  | BridgeGetHistory, CallGetBridgeHistory _ => true
  | _, _ => false
  end.

(** The service behind the generator that [selected_generator] names. *)
Definition selected_service (S : Services.t) (self : PrivacyToken)
    (bi : BridgeInfo.t) : World -> (exn + string) * World :=
  if bool_decide (tokenId self = ETHEREUM) then
    Services.genETHDepositAddress S (commonParams self bi)
  else if bool_decide (BridgeInfo.currencyType bi = ERC20) then
    Services.genERC20DepositAddress S
      {| Deposit.commonParams := commonParams self bi;
         Deposit.tokenContractID := BridgeInfo.contractID bi |}
  else
    Services.genCentralizedDepositAddress S (commonParams self bi).

End LogVocabulary.

(** ** A concrete platform, for evaluating the definitions *)

Module Demo.

(** Account keys are their serialized payment address, currency types are
    their names, an inventory is a list of coin values, the outside world
    counts the calls it has served. *)
#[export] Instance platform : Externals := {|
  AccountKeySetModel := string;
  paymentAddressKeySerialized := fun k => k;
  CurrencyType := string;
  CurrencyType_eq_dec := _;
  Coins := list Z;
  History := string;
  txId := fun h => h;
  BridgeHistories := list string;
  World := nat;
  ETHEREUM := "ETH-TOKEN-ID";
  ERC20 := "ERC20";
|}.

(** Services that always succeed. *)
Definition online : Services.t := {|
  Services.hasExchangeRate := fun _ w => (inr true, S w);
  Services.getAvailableCoins := fun _ _ w => (inr [100%Z], S w);
  Services.sendPrivacyToken := fun _ w => (inr "tx-1", S w);
  Services.sendBurningRequest := fun _ w => (inr "tx-2", S w);
  Services.sendPrivacyTokenPdeContribution := fun _ w => (inr "tx-3", S w);
  Services.sendPrivacyTokenPdeTradeRequest := fun _ w => (inr "tx-4", S w);
  Services.genETHDepositAddress := fun _ w => (inr "0xETH", S w);
  Services.genERC20DepositAddress := fun _ w => (inr "0xERC", S w);
  Services.genCentralizedDepositAddress := fun _ w => (inr "bc1", S w);
  Services.getBridgeHistory := fun _ w => (inr ["h1"], S w);
|}.

(** The same services behind a node that refuses every inventory query. *)
Definition inventory_down : Services.t := {|
  Services.hasExchangeRate := Services.hasExchangeRate online;
  Services.getAvailableCoins :=
    fun _ _ w => (inl (CollaboratorError "node unreachable"), S w);
  Services.sendPrivacyToken := Services.sendPrivacyToken online;
  Services.sendBurningRequest := Services.sendBurningRequest online;
  Services.sendPrivacyTokenPdeContribution :=
    Services.sendPrivacyTokenPdeContribution online;
  Services.sendPrivacyTokenPdeTradeRequest :=
    Services.sendPrivacyTokenPdeTradeRequest online;
  Services.genETHDepositAddress := Services.genETHDepositAddress online;
  Services.genERC20DepositAddress := Services.genERC20DepositAddress online;
  Services.genCentralizedDepositAddress :=
    Services.genCentralizedDepositAddress online;
  Services.getBridgeHistory := Services.getBridgeHistory online;
|}.

(** The token description of the spec's construction scenario. *)
Definition T1 : PrivacyTokenApi.t := {|
  PrivacyTokenApi.tokenId := "T1";
  PrivacyTokenApi.name := "Test";
  PrivacyTokenApi.symbol := "TST";
  PrivacyTokenApi.supplyAmount := 1000;
  PrivacyTokenApi.bridgeInfo := Null;
|}.

Definition plain_token : PrivacyToken := {|
  base := Token.constructor "payment-address" "T1" "Test" "TST";
  isPrivacyToken := true;
  totalSupply := 1000;
  bridgeInfo := Null;
|}.

(** A bridged ERC20 token, as in the spec's deposit scenario. *)
Definition erc20_token : PrivacyToken := {|
  base := Token.constructor "payment-address" "T2" "Wrapped" "WRP";
  isPrivacyToken := true;
  totalSupply := 5;
  bridgeInfo := Present {| BridgeInfo.currencyType := "ERC20";
                           BridgeInfo.contractID := "0xABC" |};
|}.

(** The bridged Ethereum token; its currency type is deliberately ERC20. *)
Definition ethereum_token : PrivacyToken := {|
  base := Token.constructor "payment-address" "ETH-TOKEN-ID" "Ether" "ETH";
  isPrivacyToken := true;
  totalSupply := 5;
  bridgeInfo := Present {| BridgeInfo.currencyType := "ERC20";
                           BridgeInfo.contractID := "" |};
|}.

(** A bridged token held in centralized custody. *)
Definition custody_token : PrivacyToken := {|
  base := Token.constructor "payment-address" "T3" "Bitcoin" "BTC";
  isPrivacyToken := true;
  totalSupply := 5;
  bridgeInfo := Present {| BridgeInfo.currencyType := "BTC";
                           BridgeInfo.contractID := "" |};
|}.

Definition start (t : PrivacyToken) : State := {| this := t; world := 0%nat |}.

Definition pay : PaymentInfoModel :=
  {| paymentAddressStr := Present "receiver"; amount := 7 |}.

End Demo.

(** * Properties *)

(** ** Bridge operations *)

Section BridgeProperties.
Context `{Externals} (S : Services.t).

(** C1: on a token whose bridgeInfo is present, bridgeGenerateDepositAddress
    makes exactly one service call, and it is the generator chosen by the
    priority order Ethereum token id, then ERC20 currency type (with the
    contract id attached), then centralized custody. *)
Theorem bridge_deposit_selects_one_generator (s : State) (bi : BridgeInfo.t) :
  bridgeInfo (this s) = Present bi ->
  calls (emitted (bridgeGenerateDepositAddress S s))
  = [selected_generator (this s) bi].
Proof.
  intros Hbi.
  unfold bridgeGenerateDepositAddress, selected_generator, try_catch, bind,
    get_this, invoke, bridgeEthereum, bridgeErc20Token; cbn.
  rewrite Hbi; cbn.
  destruct (bool_decide (tokenId (this s) = ETHEREUM)); cbn.
  - destruct (Services.genETHDepositAddress S _ _) as [[e|a] w]; reflexivity.
  - destruct (bool_decide (BridgeInfo.currencyType bi = ERC20)); cbn.
    + destruct (Services.genERC20DepositAddress S _ _) as [[e|a] w]; reflexivity.
    + destruct (Services.genCentralizedDepositAddress S _ _) as [[e|a] w];
        reflexivity.
Qed.

End BridgeProperties.

(** ** Running an operation symbolically *)

(** The payment-list check is kept folded while an operation is run; what
    it can throw is recorded once, below. *)
#[local] Arguments Validator.paymentInfoList : simpl never.
#[local] Arguments bool_decide : simpl never.

Lemma paymentInfoList_throws (label : string) (l : list PaymentInfoModel) (e : exn) :
  Validator.paymentInfoList label l = inl e ->
  e = ValidationError label InvalidPaymentInfoList.
Proof.
  unfold Validator.paymentInfoList.
  destruct l as [|p l]; [congruence|].
  destruct (forallb Validator.paymentInfo (p :: l)); congruence.
Qed.

(** The term an evaluation is waiting for: the innermost scrutinee. *)
Ltac stuck t :=
  lazymatch t with
  | match ?x with _ => _ end => stuck x
  | (match ?x with _ => _ end) _ => stuck x
  | _ => t
  end.

Ltac unfold_ops :=
  unfold perform in *;
  unfold hasExchangeRate, transfer, burning, pdeContribution, requestTrade,
    bridgeGenerateDepositAddress, bridgeGetHistory in *;
  unfold getNativeAvailableCoins in *;
  unfold getAvailableCoins, bridgeEthereum, bridgeErc20Token in *;
  unfold try_catch, bind, lift, get_this, log, throw, ret, invoke,
    declared_checks, check_amount, check_string, check_paymentInfoList,
    Validator.required, Validator.amount, Validator.string in *.

(** One step: case analysis on what the run [H : o = ...] is waiting for. *)
Ltac run_step H :=
  lazymatch type of H with
  | _ = ?big =>
      let x := stuck big in
      lazymatch x with
      | Build_Outcome _ _ _ _ => fail "the run is over"
      | _ => destruct x eqn:?; cbn in *
      end
  end.

(** Follow every path of the run to its end. *)
Ltac run H := unfold_ops; cbn in *; repeat run_step H; subst; cbn in *.

Ltac payment_list_error :=
  repeat match goal with
    | E : Validator.paymentInfoList _ _ = inl _ |- _ =>
        apply paymentInfoList_throws in E; subst
    end.

(** ** Traces *)

Lemma calls_served `{Externals} (tr : list event) :
  calls tr = map fst (served tr).
Proof.
  induction tr as [|[lvl msg d|c r] tr IH]; cbn; congruence.
Qed.

Lemma fail_stop_split `{Externals} (tr pre post : list (call * ending))
    (res : option exn) (c : call) (e : exn) :
  fail_stop tr res ->
  tr = pre ++ (c, Raised e) :: post ->
  res = Some e /\ post = [].
Proof.
  revert tr. induction pre as [|[c' en'] pre IH]; intros tr Hfs ->.
  - cbn in Hfs. destruct Hfs as [-> ->]. auto.
  - cbn in Hfs. destruct en'.
    + eapply IH; [exact Hfs|reflexivity].
    + destruct Hfs as [Hnil _]. destruct pre; discriminate Hnil.
Qed.

(** ** What a run looks like *)

Section RunProperties.
Context `{Externals} (S : Services.t).

Lemma perform_fail_stop (r : request) (s : State) :
  fail_stop (served (emitted (perform S r s)))
            (failure (result (perform S r s))).
Proof.
  remember (perform S r s) as o eqn:Ho.
  destruct r; run Ho; auto.
Qed.

Lemma rejected_before_any_call (r : request) (s : State) (e : exn) :
  is_send_request r = true ->
  first_failure (declared_checks r) = Some e ->
  result (perform S r s) = inl e /\
  final (perform S r s) = s /\
  served (emitted (perform S r s)) = [].
Proof.
  intros Hr Hv. remember (perform S r s) as o eqn:Ho.
  destruct r; try discriminate Hr; run Ho;
    solve [discriminate | split; [congruence | split; reflexivity]].
Qed.

Lemma check_amount_throws (label : string) (v : nullable Z) (e : exn) :
  check_amount label v = Some e -> is_validation_error e = true.
Proof.
  unfold check_amount, Validator.required, Validator.amount.
  destruct v as [| |n]; cbn; try (intros [= <-]; reflexivity).
  destruct (0 <=? n); cbn; [discriminate|intros [= <-]; reflexivity].
Qed.

Lemma check_string_throws (label : string) (v : nullable string) (e : exn) :
  check_string label v = Some e -> is_validation_error e = true.
Proof.
  unfold check_string, Validator.required, Validator.string.
  destruct v as [| |[|ch str]]; cbn; try discriminate;
    intros [= <-]; reflexivity.
Qed.

Lemma check_paymentInfoList_throws (label : string)
    (v : nullable (list PaymentInfoModel)) (e : exn) :
  check_paymentInfoList label v = Some e -> is_validation_error e = true.
Proof.
  unfold check_paymentInfoList, Validator.required.
  destruct v as [| |l]; cbn; try (intros [= <-]; reflexivity).
  destruct (Validator.paymentInfoList label l) as [e'|u] eqn:E; cbn;
    [|discriminate].
  intros [= <-]. apply paymentInfoList_throws in E. subst. reflexivity.
Qed.

Lemma first_failure_In (verdicts : list (option exn)) (e : exn) :
  first_failure verdicts = Some e -> In (Some e) verdicts.
Proof.
  induction verdicts as [|[e'|] rest IH]; cbn.
  - discriminate.
  - intros [= ->]. left. reflexivity.
  - intros Hrest. right. apply IH, Hrest.
Qed.

Lemma declared_failure_is_validation_error (r : request) (e : exn) :
  first_failure (declared_checks r) = Some e ->
  is_validation_error e = true.
Proof.
  intros Hv. apply first_failure_In in Hv.
  destruct r; cbn in Hv; intuition
    eauto using check_amount_throws, check_string_throws,
      check_paymentInfoList_throws.
Qed.

Lemma validated_send_trace (r : request) (s : State) :
  is_send_request r = true ->
  first_failure (declared_checks r) = None ->
  send_trace (served (emitted (perform S r s))).
Proof.
  intros Hr Hv. remember (perform S r s) as o eqn:Ho.
  destruct r; try discriminate Hr; run Ho;
    solve [discriminate | constructor; reflexivity].
Qed.

Lemma send_trace_or_nothing (r : request) (s : State) :
  is_send_request r = true ->
  served (emitted (perform S r s)) = [] \/
  send_trace (served (emitted (perform S r s))).
Proof.
  intros Hr. destruct (first_failure (declared_checks r)) as [e|] eqn:Hv.
  - left. eapply rejected_before_any_call; eauto.
  - right. apply validated_send_trace; assumption.
Qed.

End RunProperties.

(** ** Leaving the instance alone *)

Section Frame.
Context `{Externals}.

Lemma frames_ret {A} (a : A) : frames (ret a).
Proof. intros s. reflexivity. Qed.

Lemma frames_throw {A} (e : exn) : frames (@throw _ A e).
Proof. intros s. reflexivity. Qed.

Lemma frames_lift {A} (r : exn + A) : frames (lift r).
Proof. intros s. reflexivity. Qed.

Lemma frames_get_this : frames get_this.
Proof. intros s. reflexivity. Qed.

Lemma frames_log (lvl : level) (message : string) (d : detail) :
  frames (log lvl message d).
Proof. intros s. reflexivity. Qed.

Lemma frames_invoke {A} (c : call) (f : World -> (exn + A) * World) :
  frames (invoke c f).
Proof.
  intros s. unfold invoke. destruct (f (world s)) as [[e|a] w]; reflexivity.
Qed.

Lemma frames_bind {A B} (m : M A) (k : A -> M B) :
  frames m -> (forall a, frames (k a)) -> frames (bind m k).
Proof.
  intros Hm Hk s. unfold bind. specialize (Hm s).
  destruct (m s) as [[e|a] s' tr]; cbn in *; [exact Hm|].
  specialize (Hk a s'). destruct (k a s') as [r s'' tr']; cbn in *.
  congruence.
Qed.

Lemma frames_try_catch {A} (m : M A) (h : exn -> M A) :
  frames m -> (forall e, frames (h e)) -> frames (try_catch m h).
Proof.
  intros Hm Hh s. unfold try_catch. specialize (Hm s).
  destruct (m s) as [[e|a] s' tr]; cbn in *; [|exact Hm].
  specialize (Hh e s'). destruct (h e s') as [r s'' tr']; cbn in *.
  congruence.
Qed.

End Frame.

Create HintDb frames.
#[local] Hint Resolve frames_ret frames_throw frames_lift frames_get_this
  frames_log frames_invoke : frames.

(** Split a composite computation into its parts. *)
Ltac frame :=
  repeat first
    [ apply frames_try_catch; [|intros ?]
    | apply frames_bind; [|intros ?]
    | solve [auto with frames]
    | match goal with
      | |- frames (match ?x with _ => _ end) => destruct x
      end ].

Section FrameOfMethods.
Context `{Externals} (S : Services.t).

Lemma frames_getAvailableCoins (tokenId : nullable string) :
  frames (getAvailableCoins S tokenId).
Proof. unfold getAvailableCoins. frame. Qed.

Lemma frames_perform (r : request) : frames (perform S r).
Proof.
  pose proof frames_getAvailableCoins as Hq.
  destruct r; cbn;
    unfold hasExchangeRate, getNativeAvailableCoins, transfer, burning,
      pdeContribution, requestTrade, bridgeGenerateDepositAddress,
      bridgeGetHistory;
    frame; auto.
Qed.

End FrameOfMethods.

(** ** The send operations *)

Section SendClaims.
Context `{Externals} (S : Services.t).

Lemma first_failure_None (verdicts : list (option exn)) :
  first_failure verdicts = None -> Forall (eq None) verdicts.
Proof.
  induction verdicts as [|[e|] rest IH]; cbn; intros Hv.
  - constructor.
  - discriminate.
  - constructor; [reflexivity|apply IH, Hv].
Qed.

Lemma check_amount_passes (label : string) (v : nullable Z) :
  None = check_amount label v -> is_negative v = false.
Proof.
  unfold check_amount, Validator.required, Validator.amount, is_negative.
  destruct v as [| |n]; cbn; try reflexivity.
  destruct (Z.leb_spec 0 n); cbn; [intros _|discriminate].
  apply Z.ltb_ge. assumption.
Qed.

Lemma negative_fee_fails_a_check (r : request) :
  existsb is_negative (fees r) = true ->
  first_failure (declared_checks r) <> None.
Proof.
  intros Hneg Hv. apply first_failure_None in Hv.
  destruct r; cbn in Hneg; try discriminate;
    cbn in Hv;
    repeat match goal with
      | F : Forall _ (_ :: _) |- _ =>
          let E := fresh "E" in
          apply Forall_cons in F; destruct F as [E F];
          try apply check_amount_passes in E
      end;
    repeat match goal with
      | E : is_negative _ = false |- _ => rewrite E in Hneg; clear E
      end;
    discriminate Hneg.
Qed.

(** C3: a send operation given a negative fee rejects with a validation
    error, namely the verdict of the first failing parameter in the order of
    the signature, and it does so without calling any service and without
    touching the outside world. *)
Theorem negative_fee_rejected_before_any_call (r : request) (s : State) :
  is_send_request r = true ->
  existsb is_negative (fees r) = true ->
  exists e,
    first_failure (declared_checks r) = Some e /\
    is_validation_error e = true /\
    result (perform S r s) = inl e /\
    final (perform S r s) = s /\
    calls (emitted (perform S r s)) = [].
Proof.
  intros Hr Hneg.
  destruct (first_failure (declared_checks r)) as [e|] eqn:Hv.
  - exists e.
    destruct (rejected_before_any_call S r s e Hr Hv) as (Hres & Hfin & Hcalls).
    repeat split; try assumption.
    + eapply declared_failure_is_validation_error; eassumption.
    + rewrite calls_served, Hcalls. reflexivity.
  - exfalso. eapply negative_fee_fails_a_check; eassumption.
Qed.

(** C4: when a service call raises, the operation rejects with that very
    value and no service is called afterwards.  This holds for every
    public operation. *)
Theorem collaborator_failure_propagates (r : request) (s : State)
    (pre post : list (call * ending)) (c : call) (e : exn) :
  served (emitted (perform S r s)) = pre ++ (c, Raised e) :: post ->
  result (perform S r s) = inl e /\ post = [].
Proof.
  intros Hsplit.
  destruct (fail_stop_split _ _ _ _ _ _ (perform_fail_stop S r s) Hsplit)
    as [Hres Hpost].
  split; [|exact Hpost].
  destruct (result (perform S r s)); cbn in Hres; congruence.
Qed.

(** Where a call sits in a trace of the send protocol. *)
Lemma send_trace_position (tr pre post : list (call * ending))
    (c : call) (en : ending) :
  send_trace tr ->
  tr = pre ++ (c, en) :: post ->
  (is_token_query c = true ->
     pre = [(CallGetAvailableCoins Null, Returned)]) /\
  (is_send c = true ->
     pre = [(CallGetAvailableCoins Null, Returned);
            (CallGetAvailableCoins Undefined, Returned)] /\ post = []).
Proof.
  intros Htr Hsplit.
  destruct Htr as [e|e|c' en' Hsend];
    repeat (destruct pre as [|? pre]; cbn in Hsplit; try discriminate Hsplit);
    simplify_eq; split; intros Hc; try discriminate Hc; auto;
    match goal with x : call |- _ => destruct x; discriminate end.
Qed.

(** C5, as the code has it: after successful validation the native
    inventory is queried exactly once; this token's inventory is queried
    exactly once when the native query returned and not at all when it
    raised; a send is only issued after both queries returned, and nothing
    follows it. *)
Theorem validated_send_gathers_inventories (r : request) (s : State) :
  is_send_request r = true ->
  first_failure (declared_checks r) = None ->
  count is_native_query (emitted (perform S r s)) = 1%nat /\
  (count is_token_query (emitted (perform S r s)) <= 1)%nat /\
  (In (CallGetAvailableCoins Null, Returned)
      (served (emitted (perform S r s))) ->
   count is_token_query (emitted (perform S r s)) = 1%nat) /\
  (forall e,
     In (CallGetAvailableCoins Null, Raised e)
        (served (emitted (perform S r s))) ->
     count is_token_query (emitted (perform S r s)) = 0%nat) /\
  (forall pre c en post,
     served (emitted (perform S r s)) = pre ++ (c, en) :: post ->
     is_send c = true ->
     pre = [(CallGetAvailableCoins Null, Returned);
            (CallGetAvailableCoins Undefined, Returned)] /\ post = []).
Proof.
  intros Hr Hv.
  pose proof (validated_send_trace S r s Hr Hv) as Htr.
  unfold count. rewrite calls_served.
  split; [|split; [|split; [|split]]].
  - destruct Htr as [e|e|c en Hc]; try reflexivity.
    destruct c; try discriminate Hc; reflexivity.
  - destruct Htr as [e|e|c en Hc]; cbn; try lia.
    destruct c; try discriminate Hc; cbn; lia.
  - intros Hin. destruct Htr as [e|e|c en Hc]; cbn in *.
    + destruct Hin as [Hin|[]]; discriminate Hin.
    + reflexivity.
    + destruct c; try discriminate Hc; reflexivity.
  - intros e Hin. destruct Htr as [e'|e'|c en Hc]; cbn in *.
    + reflexivity.
    + destruct Hin as [Hin|[Hin|[]]]; discriminate Hin.
    + destruct Hin as [Hin|[Hin|[Hin|[]]]]; try discriminate Hin.
      inversion Hin; subst. discriminate Hc.
  - intros pre c en post Hsplit Hc.
    eapply send_trace_position; eassumption.
Qed.

(** C7: [transfer([], 10, 5)] rejects with a validation error on the
    payment list, and no inventory query (indeed no call at all) is made. *)
Theorem transfer_empty_payment_list_rejected (s : State) :
  result (transfer S (Present []) (Present 10) (Present 5) s)
  = inl (ValidationError "paymentList" InvalidPaymentInfoList) /\
  count is_inventory_query
    (emitted (transfer S (Present []) (Present 10) (Present 5) s)) = 0%nat /\
  calls (emitted (transfer S (Present []) (Present 10) (Present 5) s)) = [].
Proof.
  repeat split.
Qed.

(** C9: no operation changes the instance: the [this] an operation ends
    with has the same account key set, token id, name, symbol, privacy
    marker, total supply and bridge information as the one it started with,
    whether the operation returns or rejects. *)
Theorem operations_leave_instance_unchanged (r : request) (s : State) :
  this (final (perform S r s)) = this s /\
  accountKeySet (this (final (perform S r s))) = accountKeySet (this s) /\
  tokenId (this (final (perform S r s))) = tokenId (this s) /\
  name (this (final (perform S r s))) = name (this s) /\
  symbol (this (final (perform S r s))) = symbol (this s) /\
  isPrivacyToken (this (final (perform S r s))) = isPrivacyToken (this s) /\
  totalSupply (this (final (perform S r s))) = totalSupply (this s) /\
  bridgeInfo (this (final (perform S r s))) = bridgeInfo (this s).
Proof.
  pose proof (frames_perform S r s) as Hframe.
  rewrite Hframe. repeat split.
Qed.

(** C10: in a send operation this token's inventory is only queried
    directly after the native query has returned; when the native query
    raises, this token's inventory is not queried at all. *)
Theorem native_inventory_before_token_inventory (r : request) (s : State) :
  is_send_request r = true ->
  (forall pre c en post,
     served (emitted (perform S r s)) = pre ++ (c, en) :: post ->
     is_token_query c = true ->
     pre = [(CallGetAvailableCoins Null, Returned)]) /\
  (forall e,
     In (CallGetAvailableCoins Null, Raised e)
        (served (emitted (perform S r s))) ->
     count is_token_query (emitted (perform S r s)) = 0%nat).
Proof.
  intros Hr. unfold count. rewrite calls_served.
  destruct (send_trace_or_nothing S r s Hr) as [Hnil|Htr].
  - rewrite Hnil. split.
    + intros pre c en post Hsplit. destruct pre; discriminate Hsplit.
    + intros e [].
  - split.
    + intros pre c en post Hsplit Hc.
      eapply send_trace_position; eassumption.
    + intros e Hin. destruct Htr as [e'|e'|c en Hc]; cbn in *.
      * reflexivity.
      * destruct Hin as [Hin|[Hin|[]]]; discriminate Hin.
      * destruct Hin as [Hin|[Hin|[Hin|[]]]]; try discriminate Hin.
        inversion Hin; subst. discriminate Hc.
Qed.

End SendClaims.

(** ** Construction and the bridge precondition *)

Section ConstructionClaims.
Context `{Externals} (S : Services.t).

(** C2: on a token without bridgeInfo both bridge operations reject with
    an [ErrorCode] whose message contains the token id, and no service is
    called: no deposit-address generator, no bridge-history query. *)
Theorem bridge_unsupported_without_bridgeInfo (r : request) (s : State) :
  is_bridge_request r = true ->
  is_present (bridgeInfo (this s)) = false ->
  exists message,
    result (perform S r s) = inl (ErrorCode message) /\
    mentions message (tokenId (this s)) /\
    calls (emitted (perform S r s)) = [].
Proof.
  intros Hr Hbi.
  destruct r; try discriminate Hr;
    unfold perform, bridgeGenerateDepositAddress, bridgeGetHistory,
      try_catch, bind, get_this, throw, log; cbn;
    destruct (bridgeInfo (this s)) as [| |bi]; try discriminate Hbi; cbn;
    eexists; (split; [reflexivity|split; [|reflexivity]]);
    eexists "Token ", _; reflexivity.
Qed.

(** C6, as the code has it: the token built from the description T1 / Test
    / TST / 1000 with bridgeInfo null has totalSupply 1000, isPrivacyToken
    true and bridgeErc20Token false; bridgeEthereum evaluates to null, which
    is falsy but is not the boolean false; bridgeGetHistory rejects with an
    [ErrorCode] whose message contains T1. *)
Theorem construction_scenario (aks : AccountKeySetModel) (w : World) :
  exists t,
    constructor
      {| param_accountKeySet := Present aks;
         param_privacyTokenApi :=
           Present {| PrivacyTokenApi.tokenId := "T1";
                      PrivacyTokenApi.name := "Test";
                      PrivacyTokenApi.symbol := "TST";
                      PrivacyTokenApi.supplyAmount := 1000;
                      PrivacyTokenApi.bridgeInfo := Null |} |} = inr t /\
    totalSupply t = 1000 /\
    isPrivacyToken t = true /\
    bridgeErc20Token t = false /\
    bridgeEthereum t = JsNull /\
    truthy (bridgeEthereum t) = false /\
    exists message,
      result (bridgeGetHistory S {| this := t; world := w |})
      = inl (ErrorCode message) /\
      mentions message "T1".
Proof.
  eexists. split; [reflexivity|]. cbn.
  repeat (split; [reflexivity|]).
  eexists. split; [reflexivity|].
  exists "Token ", " does not support bridge history function". reflexivity.
Qed.

(** C8: construction rejects with a validation error ("required") when the
    account key set or the token description is absent, the account key set
    being checked first; otherwise it succeeds whatever the description
    holds, with the identity fields, the supply and the bridge information
    copied as they are and the privacy marker set. *)
Theorem constructor_contract (p : PrivacyTokenParam) :
  match param_accountKeySet p, param_privacyTokenApi p with
  | Present aks, Present api =>
      constructor p
      = inr {| base := {| Token.accountKeySet := aks;
                          Token.tokenId := PrivacyTokenApi.tokenId api;
                          Token.name := PrivacyTokenApi.name api;
                          Token.symbol := PrivacyTokenApi.symbol api |};
               isPrivacyToken := true;
               totalSupply := PrivacyTokenApi.supplyAmount api;
               bridgeInfo := PrivacyTokenApi.bridgeInfo api |}
  | Present _, (Undefined | Null) =>
      constructor p = inl (ValidationError "privacyTokenApi" Required)
  | (Undefined | Null), _ =>
      constructor p = inl (ValidationError "accountKeySet" Required)
  end.
Proof.
  destruct p as [[| |aks] [| |api]]; reflexivity.
Qed.

End ConstructionClaims.

(** ** The properties at concrete inputs *)

Section Instances.
Import Demo.

Example transfer_runs :
  result (transfer online (Present [pay]) (Present 10) (Present 5)
            (start erc20_token)) = inr "tx-1" /\
  served (emitted (transfer online (Present [pay]) (Present 10) (Present 5)
                     (start erc20_token)))
  = [(CallGetAvailableCoins Null, Returned);
     (CallGetAvailableCoins Undefined, Returned);
     (CallSendPrivacyToken
        {| SendPrivacyToken.accountKeySet := "payment-address";
           SendPrivacyToken.nativeAvailableCoins := [100];
           SendPrivacyToken.privacyAvailableCoins := [100];
           SendPrivacyToken.nativeFee := 10;
           SendPrivacyToken.privacyFee := 5;
           SendPrivacyToken.privacyPaymentInfoList := [pay];
           SendPrivacyToken.tokenId := "T2";
           SendPrivacyToken.tokenName := "Wrapped";
           SendPrivacyToken.tokenSymbol := "WRP" |}, Returned)] /\
  world (final (transfer online (Present [pay]) (Present 10) (Present 5)
                  (start erc20_token))) = 3%nat.
Proof. repeat split. Qed.

Example transfer_logs_its_failure :
  emitted (transfer online (Present [pay]) Null (Present 5) (start erc20_token))
  = [Log Error "Privacy token T2 transfered failed"
       (ErrorDetail (ValidationError "nativeFee" Required))].
Proof. reflexivity. Qed.

Example ethereum_id_wins_over_erc20 :
  calls (emitted (bridgeGenerateDepositAddress online (start ethereum_token)))
  = [CallGenETHDepositAddress
       {| Deposit.paymentAddress := "payment-address";
          Deposit.walletAddress := "payment-address";
          Deposit.tokenId := "ETH-TOKEN-ID";
          Deposit.currencyType := "ERC20" |}].
Proof. reflexivity. Qed.

Example other_currencies_go_to_custody :
  result (bridgeGenerateDepositAddress online (start custody_token)) = inr "bc1" /\
  calls (emitted (bridgeGenerateDepositAddress online (start custody_token)))
  = [CallGenCentralizedDepositAddress
       {| Deposit.paymentAddress := "payment-address";
          Deposit.walletAddress := "payment-address";
          Deposit.tokenId := "T3";
          Deposit.currencyType := "BTC" |}].
Proof. repeat split. Qed.

Example bridge_history_runs :
  result (bridgeGetHistory online (start erc20_token)) = inr ["h1"].
Proof. reflexivity. Qed.

(** The spec's deposit scenario: an ERC20 bridge with contract 0xABC. *)
Lemma bridge_deposit_selects_one_generator_erc20 :
  bridgeInfo (this (start erc20_token))
  = Present {| BridgeInfo.currencyType := "ERC20";
               BridgeInfo.contractID := "0xABC" |} /\
  calls (emitted (bridgeGenerateDepositAddress online (start erc20_token)))
  = [CallGenERC20DepositAddress
       {| Deposit.commonParams :=
            {| Deposit.paymentAddress := "payment-address";
               Deposit.walletAddress := "payment-address";
               Deposit.tokenId := "T2";
               Deposit.currencyType := "ERC20" |};
          Deposit.tokenContractID := "0xABC" |}].
Proof.
  split; [reflexivity|].
  exact (bridge_deposit_selects_one_generator online (start erc20_token) _
           eq_refl).
Defined.

Lemma bridge_unsupported_on_plain_token :
  is_bridge_request BridgeGenerateDepositAddress = true /\
  is_present (bridgeInfo (this (start plain_token))) = false /\
  exists message,
    result (perform online BridgeGenerateDepositAddress (start plain_token))
    = inl (ErrorCode message) /\
    mentions message "T1" /\
    calls (emitted (perform online BridgeGenerateDepositAddress
                      (start plain_token))) = [].
Proof.
  split; [reflexivity|]. split; [reflexivity|].
  exact (bridge_unsupported_without_bridgeInfo online
           BridgeGenerateDepositAddress (start plain_token) eq_refl eq_refl).
Defined.

Lemma negative_native_fee_rejected :
  is_send_request (Transfer (Present [pay]) (Present (-1)) (Present 5)) = true /\
  existsb is_negative
    (fees (Transfer (Present [pay]) (Present (-1)) (Present 5))) = true /\
  exists e,
    first_failure
      (declared_checks (Transfer (Present [pay]) (Present (-1)) (Present 5)))
    = Some e /\
    is_validation_error e = true /\
    result (perform online (Transfer (Present [pay]) (Present (-1)) (Present 5))
              (start erc20_token)) = inl e /\
    final (perform online (Transfer (Present [pay]) (Present (-1)) (Present 5))
             (start erc20_token)) = start erc20_token /\
    calls (emitted (perform online
                      (Transfer (Present [pay]) (Present (-1)) (Present 5))
                      (start erc20_token))) = [].
Proof.
  split; [reflexivity|]. split; [reflexivity|].
  exact (negative_fee_rejected_before_any_call online
           (Transfer (Present [pay]) (Present (-1)) (Present 5))
           (start erc20_token) eq_refl eq_refl).
Defined.

Lemma inventory_outage_propagates :
  served (emitted (perform inventory_down
                     (Transfer (Present [pay]) (Present 10) (Present 5))
                     (start erc20_token)))
  = [] ++ (CallGetAvailableCoins Null,
           Raised (CollaboratorError "node unreachable")) :: [] /\
  result (perform inventory_down
            (Transfer (Present [pay]) (Present 10) (Present 5))
            (start erc20_token))
  = inl (CollaboratorError "node unreachable").
Proof.
  split; [reflexivity|].
  exact (proj1 (collaborator_failure_propagates inventory_down
                  (Transfer (Present [pay]) (Present 10) (Present 5))
                  (start erc20_token) [] [] _ _ eq_refl)).
Defined.

(** With the inventory service down, a validated transfer never asks for
    this token's inventory: the claim of exactly one query each fails. *)
Lemma inventory_outage_skips_token_inventory :
  first_failure
    (declared_checks (Transfer (Present [pay]) (Present 10) (Present 5)))
  = None /\
  ~ gathers_both_once_before_send
      (emitted (perform inventory_down
                  (Transfer (Present [pay]) (Present 10) (Present 5))
                  (start erc20_token))).
Proof.
  split; [reflexivity|].
  intros (_ & Htoken & _). vm_compute in Htoken. discriminate Htoken.
Qed.

Lemma validated_transfer_gathers_inventories :
  is_send_request (Transfer (Present [pay]) (Present 10) (Present 5)) = true /\
  first_failure
    (declared_checks (Transfer (Present [pay]) (Present 10) (Present 5)))
  = None /\
  count is_native_query
    (emitted (perform online (Transfer (Present [pay]) (Present 10) (Present 5))
                (start erc20_token))) = 1%nat /\
  count is_token_query
    (emitted (perform online (Transfer (Present [pay]) (Present 10) (Present 5))
                (start erc20_token))) = 1%nat /\
  count is_token_query
    (emitted (perform inventory_down
                (Transfer (Present [pay]) (Present 10) (Present 5))
                (start erc20_token))) = 0%nat.
Proof.
  split; [reflexivity|]. split; [reflexivity|].
  pose proof (validated_send_gathers_inventories online
                (Transfer (Present [pay]) (Present 10) (Present 5))
                (start erc20_token) eq_refl eq_refl)
    as (Hnative & _ & Hreturned & _).
  pose proof (validated_send_gathers_inventories inventory_down
                (Transfer (Present [pay]) (Present 10) (Present 5))
                (start erc20_token) eq_refl eq_refl)
    as (_ & _ & _ & Hraised & _).
  split; [exact Hnative|]. split.
  - apply Hreturned. left. reflexivity.
  - apply (Hraised (CollaboratorError "node unreachable")). left. reflexivity.
Defined.

Lemma inventory_outage_stops_before_token_inventory :
  is_send_request (Burning (Present "0xdead") (Present 3) (Present 10) (Present 5))
  = true /\
  count is_token_query
    (emitted (perform inventory_down
                (Burning (Present "0xdead") (Present 3) (Present 10) (Present 5))
                (start erc20_token))) = 0%nat.
Proof.
  split; [reflexivity|].
  refine (proj2 (native_inventory_before_token_inventory inventory_down
                   (Burning (Present "0xdead") (Present 3) (Present 10) (Present 5))
                   (start erc20_token) eq_refl)
            (CollaboratorError "node unreachable") _).
  left. reflexivity.
Defined.

(** The construction scenario with [=== false] for bridgeEthereum does not
    hold: the getter yields null. *)
Lemma construction_scenario_bridgeEthereum_not_false :
  ~ construction_scenario_claim online "payment-address" 0%nat.
Proof.
  intros (t & Hctor & _ & _ & _ & Heth & _).
  cbn in Hctor. injection Hctor as <-. discriminate Heth.
Qed.

End Instances.

(** * Further properties of the operations *)

(** ** What reaches the send services *)

Section Dispatch.
Context `{Externals} (S : Services.t).

Lemma amount_checked (label : string) (n : Z) :
  check_amount label (Present n) = None -> Validator.amount label n = inr tt.
Proof.
  unfold check_amount; cbn.
  destruct (Validator.amount label n) as [e|[]]; cbn;
    [discriminate|reflexivity].
Qed.

Lemma string_checked (label : string) (str : string) :
  check_string label (Present str) = None ->
  Validator.string label str = inr tt.
Proof.
  unfold check_string; cbn.
  destruct (Validator.string label str) as [e|[]]; cbn;
    [discriminate|reflexivity].
Qed.

Lemma paymentInfoList_checked (label : string) (l : list PaymentInfoModel) :
  check_paymentInfoList label (Present l) = None ->
  Validator.paymentInfoList label l = inr tt.
Proof.
  unfold check_paymentInfoList; cbn.
  destruct (Validator.paymentInfoList label l) as [e|[]]; cbn;
    [discriminate|reflexivity].
Qed.

(** Turn "no declared check fails" into one fact per validator call. *)
Ltac checked Hv :=
  apply first_failure_None in Hv; cbn in Hv;
  repeat match goal with
    | F : Forall _ (_ :: _) |- _ =>
        let E := fresh "E" in
        apply Forall_cons in F; destruct F as [E F]; symmetry in E;
        first [ apply amount_checked in E
              | apply string_checked in E
              | apply paymentInfoList_checked in E ]
    end.

(** Run a validated send up to its last service call. *)
Ltac dispatch Hnative Hprivacy :=
  unfold transfer, burning, pdeContribution, requestTrade;
  unfold getNativeAvailableCoins; unfold getAvailableCoins;
  unfold try_catch, bind, lift, get_this, log, throw, ret, invoke,
    Validator.required;
  cbn;
  repeat match goal with
    | E : Validator.amount _ _ = inr tt |- _ => rewrite E; clear E; cbn
    | E : Validator.string _ _ = inr tt |- _ => rewrite E; clear E; cbn
    | E : Validator.paymentInfoList _ _ = inr tt |- _ => rewrite E; clear E; cbn
    end;
  rewrite Hnative; cbn; rewrite Hprivacy; cbn.

(** X1: a validated transfer whose two inventory queries return hands
    sendPrivacyToken the account keys, the two inventories just gathered,
    the fees and the payment list as given, and the token's id, name and
    symbol; what the service answers, value or error, is the result. *)
Theorem transfer_dispatch (s : State) (paymentList : list PaymentInfoModel)
    (nativeFee privacyFee : Z) (native privacy : Coins) (w1 w2 : World) :
  first_failure
    (declared_checks
       (Transfer (Present paymentList) (Present nativeFee) (Present privacyFee)))
  = None ->
  Services.getAvailableCoins S (base (this s)) Null (world s)
  = (inr native, w1) ->
  Services.getAvailableCoins S (base (this s)) Undefined w1
  = (inr privacy, w2) ->
  let p := {| SendPrivacyToken.accountKeySet := accountKeySet (this s);
              SendPrivacyToken.nativeAvailableCoins := native;
              SendPrivacyToken.privacyAvailableCoins := privacy;
              SendPrivacyToken.nativeFee := nativeFee;
              SendPrivacyToken.privacyFee := privacyFee;
              SendPrivacyToken.privacyPaymentInfoList := paymentList;
              SendPrivacyToken.tokenId := tokenId (this s);
              SendPrivacyToken.tokenName := name (this s);
              SendPrivacyToken.tokenSymbol := symbol (this s) |} in
  let o := transfer S (Present paymentList) (Present nativeFee)
             (Present privacyFee) s in
  calls (emitted o)
  = [CallGetAvailableCoins Null; CallGetAvailableCoins Undefined;
     CallSendPrivacyToken p] /\
  result o = fst (Services.sendPrivacyToken S p w2) /\
  world (final o) = snd (Services.sendPrivacyToken S p w2).
Proof.
  intros Hv Hnative Hprivacy p o. checked Hv. subst o.
  dispatch Hnative Hprivacy. fold p.
  destruct (Services.sendPrivacyToken S p w2) as [[e|h] w3]; cbn; auto.
Qed.

(** X2: a validated burning whose two inventory queries return hands
    sendBurningRequest the account keys, the two inventories just gathered,
    the fees, the token identity, the out-chain address and the burning
    amount; what the service answers is the result. *)
Theorem burning_dispatch (s : State) (outchainAddress : string)
    (burningAmount nativeFee privacyFee : Z) (native privacy : Coins)
    (w1 w2 : World) :
  first_failure
    (declared_checks
       (Burning (Present outchainAddress) (Present burningAmount)
          (Present nativeFee) (Present privacyFee)))
  = None ->
  Services.getAvailableCoins S (base (this s)) Null (world s)
  = (inr native, w1) ->
  Services.getAvailableCoins S (base (this s)) Undefined w1
  = (inr privacy, w2) ->
  let p := {| SendBurningRequest.accountKeySet := accountKeySet (this s);
              SendBurningRequest.nativeAvailableCoins := native;
              SendBurningRequest.privacyAvailableCoins := privacy;
              SendBurningRequest.nativeFee := nativeFee;
              SendBurningRequest.privacyFee := privacyFee;
              SendBurningRequest.tokenId := tokenId (this s);
              SendBurningRequest.tokenName := name (this s);
              SendBurningRequest.tokenSymbol := symbol (this s);
              SendBurningRequest.outchainAddress := outchainAddress;
              SendBurningRequest.burningAmount := burningAmount |} in
  let o := burning S (Present outchainAddress) (Present burningAmount)
             (Present nativeFee) (Present privacyFee) s in
  calls (emitted o)
  = [CallGetAvailableCoins Null; CallGetAvailableCoins Undefined;
     CallSendBurningRequest p] /\
  result o = fst (Services.sendBurningRequest S p w2) /\
  world (final o) = snd (Services.sendBurningRequest S p w2).
Proof.
  intros Hv Hnative Hprivacy p o. checked Hv. subst o.
  dispatch Hnative Hprivacy. fold p.
  destruct (Services.sendBurningRequest S p w2) as [[e|h] w3]; cbn; auto.
Qed.

(** X3: a validated pdeContribution whose two inventory queries return
    hands sendPrivacyTokenPdeContribution the account keys, the two
    inventories just gathered, the fees, the pair id, the contributed
    amount and the token identity; what the service answers is the
    result. *)
Theorem pdeContribution_dispatch (s : State) (pdeContributionPairID : string)
    (contributedAmount nativeFee privacyFee : Z) (native privacy : Coins)
    (w1 w2 : World) :
  first_failure
    (declared_checks
       (PdeContribution (Present pdeContributionPairID)
          (Present contributedAmount) (Present nativeFee) (Present privacyFee)))
  = None ->
  Services.getAvailableCoins S (base (this s)) Null (world s)
  = (inr native, w1) ->
  Services.getAvailableCoins S (base (this s)) Undefined w1
  = (inr privacy, w2) ->
  let p := {| SendPdeContribution.accountKeySet := accountKeySet (this s);
              SendPdeContribution.availableNativeCoins := native;
              SendPdeContribution.privacyAvailableCoins := privacy;
              SendPdeContribution.nativeFee := nativeFee;
              SendPdeContribution.pdeContributionPairID := pdeContributionPairID;
              SendPdeContribution.tokenId := tokenId (this s);
              SendPdeContribution.contributedAmount := contributedAmount;
              SendPdeContribution.privacyFee := privacyFee;
              SendPdeContribution.tokenSymbol := symbol (this s);
              SendPdeContribution.tokenName := name (this s) |} in
  let o := pdeContribution S (Present pdeContributionPairID)
             (Present contributedAmount) (Present nativeFee)
             (Present privacyFee) s in
  calls (emitted o)
  = [CallGetAvailableCoins Null; CallGetAvailableCoins Undefined;
     CallSendPrivacyTokenPdeContribution p] /\
  result o = fst (Services.sendPrivacyTokenPdeContribution S p w2) /\
  world (final o) = snd (Services.sendPrivacyTokenPdeContribution S p w2).
Proof.
  intros Hv Hnative Hprivacy p o. checked Hv. subst o.
  dispatch Hnative Hprivacy. fold p.
  destruct (Services.sendPrivacyTokenPdeContribution S p w2) as [[e|h] w3];
    cbn; auto.
Qed.

(** X4: a validated requestTrade whose two inventory queries return hands
    sendPrivacyTokenPdeTradeRequest the account keys, the two inventories
    just gathered, the three fees, the token to buy, the sell amount, the
    minimum acceptable amount and the token identity; what the service
    answers is the result. *)
Theorem requestTrade_dispatch (s : State) (tokenIdBuy : string)
    (sellAmount minimumAcceptableAmount nativeFee privacyFee tradingFee : Z)
    (native privacy : Coins) (w1 w2 : World) :
  first_failure
    (declared_checks
       (RequestTrade (Present tokenIdBuy) (Present sellAmount)
          (Present minimumAcceptableAmount) (Present nativeFee)
          (Present privacyFee) (Present tradingFee)))
  = None ->
  Services.getAvailableCoins S (base (this s)) Null (world s)
  = (inr native, w1) ->
  Services.getAvailableCoins S (base (this s)) Undefined w1
  = (inr privacy, w2) ->
  let p := {| SendPdeTradeRequest.accountKeySet := accountKeySet (this s);
              SendPdeTradeRequest.availableNativeCoins := native;
              SendPdeTradeRequest.privacyAvailableCoins := privacy;
              SendPdeTradeRequest.nativeFee := nativeFee;
              SendPdeTradeRequest.tradingFee := tradingFee;
              SendPdeTradeRequest.privacyFee := privacyFee;
              SendPdeTradeRequest.tokenIdBuy := tokenIdBuy;
              SendPdeTradeRequest.sellAmount := sellAmount;
              SendPdeTradeRequest.minimumAcceptableAmount :=
                minimumAcceptableAmount;
              SendPdeTradeRequest.tokenName := name (this s);
              SendPdeTradeRequest.tokenSymbol := symbol (this s);
              SendPdeTradeRequest.tokenId := tokenId (this s) |} in
  let o := requestTrade S (Present tokenIdBuy) (Present sellAmount)
             (Present minimumAcceptableAmount) (Present nativeFee)
             (Present privacyFee) (Present tradingFee) s in
  calls (emitted o)
  = [CallGetAvailableCoins Null; CallGetAvailableCoins Undefined;
     CallSendPrivacyTokenPdeTradeRequest p] /\
  result o = fst (Services.sendPrivacyTokenPdeTradeRequest S p w2) /\
  world (final o) = snd (Services.sendPrivacyTokenPdeTradeRequest S p w2).
Proof.
  intros Hv Hnative Hprivacy p o. checked Hv. subst o.
  dispatch Hnative Hprivacy. fold p.
  destruct (Services.sendPrivacyTokenPdeTradeRequest S p w2) as [[e|h] w3];
    cbn; auto.
Qed.

End Dispatch.

(** ** What is logged, and which services are reached *)

Section Logging.
Context `{Externals} (S : Services.t).

(** X5: an operation with a [catch] block that rejects has logged the
    rejection exactly once, at error level, with the message of its
    [catch] block, as its last event; one that returns has logged nothing
    at error level. *)
Theorem rejection_is_logged_once (r : request) (s : State) :
  is_guarded_request r = true ->
  match result (perform S r s) with
  | inl e =>
      exists message,
        failure_message r (this s) = Some message /\
        last (emitted (perform S r s))
        = Some (Log Error message (ErrorDetail e)) /\
        logged Error (emitted (perform S r s)) = [(message, ErrorDetail e)]
  | inr _ => logged Error (emitted (perform S r s)) = []
  end.
Proof.
  intros Hr. remember (perform S r s) as o eqn:Ho.
  destruct r; try discriminate Hr; run Ho;
    solve [reflexivity | eexists; repeat split].
Qed.

(** X6: hasExchangeRate and getNativeAvailableCoins are plain pass-through
    queries: one service call (keyed by the token id, respectively with the
    null filter), nothing logged, and the answer of the service, value or
    error, is the result. *)
Theorem unguarded_queries_pass_through (s : State) :
  let rate := Services.hasExchangeRate S (tokenId (this s)) (world s) in
  let coins := Services.getAvailableCoins S (base (this s)) Null (world s) in
  (result (hasExchangeRate S s) = fst rate /\
   world (final (hasExchangeRate S s)) = snd rate /\
   emitted (hasExchangeRate S s)
   = [Call (CallHasExchangeRate (tokenId (this s))) (ending_of (fst rate))]) /\
  (result (getNativeAvailableCoins S s) = fst coins /\
   world (final (getNativeAvailableCoins S s)) = snd coins /\
   emitted (getNativeAvailableCoins S s)
   = [Call (CallGetAvailableCoins Null) (ending_of (fst coins))]).
Proof.
  intros rate coins. subst rate coins.
  unfold hasExchangeRate, getNativeAvailableCoins, getAvailableCoins,
    bind, get_this, invoke; cbn.
  destruct (Services.hasExchangeRate S _ _) as [[e|b] w];
    destruct (Services.getAvailableCoins S _ _ _) as [[e'|c] w'];
    cbn; repeat split.
Qed.

(** X7: an operation only ever reaches its own services: a send operation
    the coin inventory and its own send service, the deposit operation the
    three generators, the history operation the history query, the two
    queries their one service; and no operation submits more than once. *)
Theorem operations_call_only_their_own_services (r : request) (s : State) :
  forallb (allowed_call r) (calls (emitted (perform S r s))) = true /\
  (count is_send (emitted (perform S r s)) <= 1)%nat.
Proof.
  remember (perform S r s) as o eqn:Ho.
  destruct r; run Ho; unfold count; cbn; split; solve [reflexivity | lia].
Qed.

(** X8: when any declared check of a send operation fails, whatever the
    reason, the operation rejects with the first failing verdict, its only
    event is the error log of its [catch] block, and the state is the one
    it started in. *)
Theorem validation_failure_only_logs (r : request) (s : State) (e : exn) :
  is_send_request r = true ->
  first_failure (declared_checks r) = Some e ->
  exists message,
    failure_message r (this s) = Some message /\
    emitted (perform S r s) = [Log Error message (ErrorDetail e)] /\
    result (perform S r s) = inl e /\
    final (perform S r s) = s.
Proof.
  intros Hr Hv. remember (perform S r s) as o eqn:Ho.
  destruct r; try discriminate Hr; run Ho;
    solve [discriminate | simplify_eq; eexists; repeat split].
Qed.

(** X9: a send operation whose arguments pass validation first logs the
    attempt, at info level and with its arguments, and then queries the
    native inventory: the log precedes every service call. *)
Theorem send_attempt_is_logged_first (r : request) (s : State) :
  is_send_request r = true ->
  first_failure (declared_checks r) = None ->
  exists message d en rest,
    attempt r (this s) = Some (message, d) /\
    emitted (perform S r s)
    = Log Info message d :: Call (CallGetAvailableCoins Null) en :: rest.
Proof.
  intros Hr Hv. remember (perform S r s) as o eqn:Ho.
  destruct r; try discriminate Hr; run Ho;
    solve [discriminate | eexists _, _, _, _; split; reflexivity].
Qed.

(** X10: a send operation that returns the history [h] has ended with an
    info log that carries the transaction id of [h]; it has logged exactly
    two lines, both at info level. *)
Theorem send_success_is_logged_last (r : request) (s : State) (h : History) :
  is_send_request r = true ->
  result (perform S r s) = inr (Submitted h) ->
  exists message,
    success_message r (this s) h = Some message /\
    last (emitted (perform S r s)) = Some (Log Info message NoDetail) /\
    length (logged Info (emitted (perform S r s))) = 2%nat /\
    logged Warning (emitted (perform S r s)) = [] /\
    logged Error (emitted (perform S r s)) = [].
Proof.
  intros Hr Hres. remember (perform S r s) as o eqn:Ho.
  destruct r; try discriminate Hr; run Ho;
    solve [discriminate | simplify_eq; eexists; repeat split].
Qed.

(** X11: on a bridged token the deposit operation answers what the selected
    generator answers, value or error, and leaves the world that generator
    left. *)
Theorem bridge_deposit_dispatch (s : State) (bi : BridgeInfo.t) :
  bridgeInfo (this s) = Present bi ->
  result (bridgeGenerateDepositAddress S s)
  = fst (selected_service S (this s) bi (world s)) /\
  world (final (bridgeGenerateDepositAddress S s))
  = snd (selected_service S (this s) bi (world s)).
Proof.
  intros Hbi.
  unfold bridgeGenerateDepositAddress, selected_service, try_catch, bind,
    get_this, throw, ret, log, invoke, bridgeEthereum, bridgeErc20Token; cbn.
  rewrite Hbi; cbn.
  destruct (bool_decide (tokenId (this s) = ETHEREUM)); cbn.
  - destruct (Services.genETHDepositAddress S _ _) as [[e|a] w]; cbn; auto.
  - destruct (bool_decide (BridgeInfo.currencyType bi = ERC20)); cbn.
    + destruct (Services.genERC20DepositAddress S _ _) as [[e|a] w]; cbn; auto.
    + destruct (Services.genCentralizedDepositAddress S _ _) as [[e|a] w];
        cbn; auto.
Qed.

(** X12: on a bridged token the deposit operation logs the request, calls
    the generator, and then either logs the address it returns, once at
    info level and once in the 60-minute warning, or logs the error; the
    warning is never issued for a failed generation. *)
Theorem bridge_deposit_trace (s : State) (bi : BridgeInfo.t) :
  bridgeInfo (this s) = Present bi ->
  let request_log :=
    Log Info "Create deposit request"
      (DepositDetail (tokenId (this s)) (BridgeInfo.currencyType bi)
         (paymentAddressKeySerialized (accountKeySet (this s)))) in
  match result (bridgeGenerateDepositAddress S s) with
  | inr a =>
      emitted (bridgeGenerateDepositAddress S s)
      = [request_log;
         Call (selected_generator (this s) bi) Returned;
         Log Info ("Generated temp deposit address successfully: " +:+ a)
           NoDetail;
         Log Warning ("The temp deposit address (" +:+ a
                      +:+ ") is only available in 60 mins from now")
           NoDetail]
  | inl e =>
      emitted (bridgeGenerateDepositAddress S s)
      = [request_log;
         Call (selected_generator (this s) bi) (Raised e);
         Log Error "Generated temp deposit address failed" (ErrorDetail e)]
  end.
Proof.
  intros Hbi request_log. subst request_log.
  unfold bridgeGenerateDepositAddress, selected_generator, try_catch, bind,
    get_this, throw, ret, log, invoke, bridgeEthereum, bridgeErc20Token; cbn.
  rewrite Hbi; cbn.
  destruct (bool_decide (tokenId (this s) = ETHEREUM)); cbn.
  - destruct (Services.genETHDepositAddress S _ _) as [[e|a] w]; reflexivity.
  - destruct (bool_decide (BridgeInfo.currencyType bi = ERC20)); cbn.
    + destruct (Services.genERC20DepositAddress S _ _) as [[e|a] w];
        reflexivity.
    + destruct (Services.genCentralizedDepositAddress S _ _) as [[e|a] w];
        reflexivity.
Qed.

(** X13: on a bridged token the history operation makes one query, keyed by
    the account's serialized payment address and the token id; its answer,
    value or error, is the result, logged at info level when it is a value
    and at error level when it is an error. *)
Theorem bridge_history_dispatch (s : State) :
  is_present (bridgeInfo (this s)) = true ->
  let p := {| BridgeHistory.paymentAddress :=
                paymentAddressKeySerialized (accountKeySet (this s));
              BridgeHistory.tokenId := tokenId (this s) |} in
  let answer := Services.getBridgeHistory S p (world s) in
  result (bridgeGetHistory S s) = fst answer /\
  world (final (bridgeGetHistory S s)) = snd answer /\
  emitted (bridgeGetHistory S s)
  = [Call (CallGetBridgeHistory p) (ending_of (fst answer));
     match fst answer with
     | inl e => Log Error "Get bridge history failed" (ErrorDetail e)
     | inr _ => Log Info "Get bridge history successfully" NoDetail
     end].
Proof.
  intros Hbi p answer. subst p answer.
  unfold bridgeGetHistory, try_catch, bind, get_this, throw, ret, log, invoke;
    cbn.
  destruct (bridgeInfo (this s)) as [| |bi]; try discriminate Hbi; cbn.
  destruct (Services.getBridgeHistory S _ _) as [[e|hs] w]; cbn; auto.
Qed.

End Logging.

Section MoreLogging.
Context `{Externals} (S : Services.t).

(** X14: a bridge operation on a token without bridgeInfo does nothing but
    log its own refusal: its only event is the error log of its [catch]
    block carrying the thrown [ErrorCode], and the state is the one it
    started in. *)
Theorem bridge_refusal_only_logs (r : request) (s : State) :
  is_bridge_request r = true ->
  is_present (bridgeInfo (this s)) = false ->
  exists message e,
    failure_message r (this s) = Some message /\
    result (perform S r s) = inl e /\
    emitted (perform S r s) = [Log Error message (ErrorDetail e)] /\
    final (perform S r s) = s.
Proof.
  intros Hr Hbi.
  destruct r; try discriminate Hr;
    unfold perform, bridgeGenerateDepositAddress, bridgeGetHistory,
      try_catch, bind, get_this, throw, log; cbn;
    destruct (bridgeInfo (this s)) as [| |bi]; try discriminate Hbi; cbn;
    eexists _, _; repeat split.
Qed.

End MoreLogging.

(** ** The further properties at concrete inputs *)

Section MoreInstances.
Import Demo.

Lemma transfer_dispatch_online :
  first_failure
    (declared_checks (Transfer (Present [pay]) (Present 10) (Present 5)))
  = None /\
  Services.getAvailableCoins online (base (this (start erc20_token))) Null
    (world (start erc20_token)) = (inr [100], 1%nat) /\
  Services.getAvailableCoins online (base (this (start erc20_token)))
    Undefined 1%nat = (inr [100], 2%nat) /\
  result (transfer online (Present [pay]) (Present 10) (Present 5)
            (start erc20_token)) = inr "tx-1" /\
  world (final (transfer online (Present [pay]) (Present 10) (Present 5)
                  (start erc20_token))) = 3%nat.
Proof.
  do 3 (split; [reflexivity|]).
  exact (proj2 (transfer_dispatch online (start erc20_token) [pay] 10 5
                  [100] [100] 1%nat 2%nat eq_refl eq_refl eq_refl)).
Defined.

Lemma burning_dispatch_online :
  first_failure
    (declared_checks
       (Burning (Present "0xdead") (Present 3) (Present 10) (Present 5)))
  = None /\
  Services.getAvailableCoins online (base (this (start erc20_token))) Null
    (world (start erc20_token)) = (inr [100], 1%nat) /\
  Services.getAvailableCoins online (base (this (start erc20_token)))
    Undefined 1%nat = (inr [100], 2%nat) /\
  result (burning online (Present "0xdead") (Present 3) (Present 10)
            (Present 5) (start erc20_token)) = inr "tx-2" /\
  world (final (burning online (Present "0xdead") (Present 3) (Present 10)
                  (Present 5) (start erc20_token))) = 3%nat.
Proof.
  do 3 (split; [reflexivity|]).
  exact (proj2 (burning_dispatch online (start erc20_token) "0xdead" 3 10 5
                  [100] [100] 1%nat 2%nat eq_refl eq_refl eq_refl)).
Defined.

Lemma pdeContribution_dispatch_online :
  first_failure
    (declared_checks
       (PdeContribution (Present "pair-1") (Present 3) (Present 10)
          (Present 5)))
  = None /\
  Services.getAvailableCoins online (base (this (start erc20_token))) Null
    (world (start erc20_token)) = (inr [100], 1%nat) /\
  Services.getAvailableCoins online (base (this (start erc20_token)))
    Undefined 1%nat = (inr [100], 2%nat) /\
  result (pdeContribution online (Present "pair-1") (Present 3) (Present 10)
            (Present 5) (start erc20_token)) = inr "tx-3" /\
  world (final (pdeContribution online (Present "pair-1") (Present 3)
                  (Present 10) (Present 5) (start erc20_token))) = 3%nat.
Proof.
  do 3 (split; [reflexivity|]).
  exact (proj2 (pdeContribution_dispatch online (start erc20_token) "pair-1"
                  3 10 5 [100] [100] 1%nat 2%nat eq_refl eq_refl eq_refl)).
Defined.

Lemma requestTrade_dispatch_online :
  first_failure
    (declared_checks
       (RequestTrade (Present "T9") (Present 3) (Present 2) (Present 10)
          (Present 5) (Present 1)))
  = None /\
  Services.getAvailableCoins online (base (this (start erc20_token))) Null
    (world (start erc20_token)) = (inr [100], 1%nat) /\
  Services.getAvailableCoins online (base (this (start erc20_token)))
    Undefined 1%nat = (inr [100], 2%nat) /\
  result (requestTrade online (Present "T9") (Present 3) (Present 2)
            (Present 10) (Present 5) (Present 1) (start erc20_token))
  = inr "tx-4" /\
  world (final (requestTrade online (Present "T9") (Present 3) (Present 2)
                  (Present 10) (Present 5) (Present 1) (start erc20_token)))
  = 3%nat.
Proof.
  do 3 (split; [reflexivity|]).
  exact (proj2 (requestTrade_dispatch online (start erc20_token) "T9" 3 2 10
                  5 1 [100] [100] 1%nat 2%nat eq_refl eq_refl eq_refl)).
Defined.

Lemma inventory_outage_is_logged_once :
  is_guarded_request (Transfer (Present [pay]) (Present 10) (Present 5))
  = true /\
  exists message,
    failure_message (Transfer (Present [pay]) (Present 10) (Present 5))
      (this (start erc20_token)) = Some message /\
    last (emitted (perform inventory_down
                     (Transfer (Present [pay]) (Present 10) (Present 5))
                     (start erc20_token)))
    = Some (Log Error message
              (ErrorDetail (CollaboratorError "node unreachable"))) /\
    logged Error (emitted (perform inventory_down
                             (Transfer (Present [pay]) (Present 10) (Present 5))
                             (start erc20_token)))
    = [(message, ErrorDetail (CollaboratorError "node unreachable"))].
Proof.
  split; [reflexivity|].
  exact (rejection_is_logged_once inventory_down
           (Transfer (Present [pay]) (Present 10) (Present 5))
           (start erc20_token) eq_refl).
Defined.

Lemma empty_address_only_logs :
  is_send_request (Burning (Present "") (Present 3) (Present 10) (Present 5))
  = true /\
  first_failure
    (declared_checks (Burning (Present "") (Present 3) (Present 10) (Present 5)))
  = Some (ValidationError "outchainAddress" InvalidString) /\
  exists message,
    failure_message (Burning (Present "") (Present 3) (Present 10) (Present 5))
      (this (start erc20_token)) = Some message /\
    emitted (perform online
               (Burning (Present "") (Present 3) (Present 10) (Present 5))
               (start erc20_token))
    = [Log Error message
         (ErrorDetail (ValidationError "outchainAddress" InvalidString))] /\
    result (perform online
              (Burning (Present "") (Present 3) (Present 10) (Present 5))
              (start erc20_token))
    = inl (ValidationError "outchainAddress" InvalidString) /\
    final (perform online
             (Burning (Present "") (Present 3) (Present 10) (Present 5))
             (start erc20_token)) = start erc20_token.
Proof.
  split; [reflexivity|]. split; [reflexivity|].
  exact (validation_failure_only_logs online
           (Burning (Present "") (Present 3) (Present 10) (Present 5))
           (start erc20_token) _ eq_refl eq_refl).
Defined.

Lemma trade_attempt_is_logged_first :
  is_send_request
    (RequestTrade (Present "T9") (Present 3) (Present 2) (Present 10)
       (Present 5) (Present 1)) = true /\
  first_failure
    (declared_checks
       (RequestTrade (Present "T9") (Present 3) (Present 2) (Present 10)
          (Present 5) (Present 1))) = None /\
  exists message d en rest,
    attempt (RequestTrade (Present "T9") (Present 3) (Present 2) (Present 10)
               (Present 5) (Present 1)) (this (start erc20_token))
    = Some (message, d) /\
    emitted (perform inventory_down
               (RequestTrade (Present "T9") (Present 3) (Present 2)
                  (Present 10) (Present 5) (Present 1))
               (start erc20_token))
    = Log Info message d :: Call (CallGetAvailableCoins Null) en :: rest.
Proof.
  split; [reflexivity|]. split; [reflexivity|].
  exact (send_attempt_is_logged_first inventory_down
           (RequestTrade (Present "T9") (Present 3) (Present 2) (Present 10)
              (Present 5) (Present 1))
           (start erc20_token) eq_refl eq_refl).
Defined.

Lemma contribution_success_is_logged_last :
  is_send_request
    (PdeContribution (Present "pair-1") (Present 3) (Present 10) (Present 5))
  = true /\
  result (perform online
            (PdeContribution (Present "pair-1") (Present 3) (Present 10)
               (Present 5))
            (start erc20_token)) = inr (Submitted "tx-3") /\
  last (emitted (perform online
                   (PdeContribution (Present "pair-1") (Present 3)
                      (Present 10) (Present 5))
                   (start erc20_token)))
  = Some (Log Info
            "Privacy token T2 sent PDE contribution request successfully with tx id tx-3"
            NoDetail).
Proof.
  split; [reflexivity|]. split; [reflexivity|].
  destruct (send_success_is_logged_last online
              (PdeContribution (Present "pair-1") (Present 3) (Present 10)
                 (Present 5))
              (start erc20_token) "tx-3" eq_refl eq_refl)
    as (message & Hmessage & Hlast & _).
  injection Hmessage as <-. exact Hlast.
Defined.

Lemma ethereum_deposit_dispatch :
  bridgeInfo (this (start ethereum_token))
  = Present {| BridgeInfo.currencyType := "ERC20";
               BridgeInfo.contractID := "" |} /\
  result (bridgeGenerateDepositAddress online (start ethereum_token))
  = inr "0xETH" /\
  world (final (bridgeGenerateDepositAddress online (start ethereum_token)))
  = 1%nat.
Proof.
  split; [reflexivity|].
  exact (bridge_deposit_dispatch online (start ethereum_token) _ eq_refl).
Defined.

Lemma erc20_deposit_trace :
  bridgeInfo (this (start erc20_token))
  = Present {| BridgeInfo.currencyType := "ERC20";
               BridgeInfo.contractID := "0xABC" |} /\
  logged Warning
    (emitted (bridgeGenerateDepositAddress online (start erc20_token)))
  = [("The temp deposit address (0xERC) is only available in 60 mins from now",
      NoDetail)].
Proof.
  split; [reflexivity|].
  rewrite (bridge_deposit_trace online (start erc20_token) _ eq_refl).
  reflexivity.
Defined.

Lemma erc20_history_dispatch :
  is_present (bridgeInfo (this (start erc20_token))) = true /\
  result (bridgeGetHistory online (start erc20_token)) = inr ["h1"] /\
  world (final (bridgeGetHistory online (start erc20_token))) = 1%nat /\
  emitted (bridgeGetHistory online (start erc20_token))
  = [Call (CallGetBridgeHistory
             {| BridgeHistory.paymentAddress := "payment-address";
                BridgeHistory.tokenId := "T2" |}) Returned;
     Log Info "Get bridge history successfully" NoDetail].
Proof.
  split; [reflexivity|].
  exact (bridge_history_dispatch online (start erc20_token) eq_refl).
Defined.

Lemma plain_token_refusal_only_logs :
  is_bridge_request BridgeGetHistory = true /\
  is_present (bridgeInfo (this (start plain_token))) = false /\
  exists message e,
    failure_message BridgeGetHistory (this (start plain_token)) = Some message /\
    result (perform online BridgeGetHistory (start plain_token)) = inl e /\
    emitted (perform online BridgeGetHistory (start plain_token))
    = [Log Error message (ErrorDetail e)] /\
    final (perform online BridgeGetHistory (start plain_token))
    = start plain_token.
Proof.
  split; [reflexivity|]. split; [reflexivity|].
  exact (bridge_refusal_only_logs online BridgeGetHistory (start plain_token)
           eq_refl eq_refl).
Defined.

End MoreInstances.
